(** * Mosaic: beam shape, tiling, overlap and delay polynomials

    A shallow embedding of [src/mosaic/beamforming.py].

    Number model.  Python floats are read as numbers: as reals ([R])
    where the code needs [sqrt], [log] or [pi] (beam widths, degree
    conversion), as rationals ([Q]) where it only adds, subtracts and
    divides (occupancy fractions, delays), so that those parts can be
    evaluated.

    Rounding.  Where the code divides, subtracts or adds floats whose
    exact result need not be a float, the operation is the exact one
    followed by [round], the rounding to the nearest float64, which the
    definitions take as a parameter; the theorems state what they need of
    it.  The two IEEE special values that the code can produce by dividing
    by zero are kept ([npfloat]).

    Exceptions.  The module defines no exception class.  Its two [raise]
    statements have a message string as operand: a string is no exception,
    and the interpreter raises TypeError at such a statement
    ([raise_str]).  [exn] has the built-in exceptions the code can end
    with. *)

From Stdlib Require Import Reals.Reals QArith.QArith QArith.Qround ZArith.ZArith.
From Stdlib Require Import Lists.List Strings.String Strings.Ascii Bool.Bool.
From Stdlib Require Import Sorting.Permutation Sorting.Sorted.
From Stdlib Require Import micromega.Lia micromega.Lqa micromega.Lra.
Import ListNotations.

Set Implicit Arguments.
Set Warnings "-register-all".

(** ** Exceptions and results *)

Module Py.

Inductive exn : Type :=
| IndexError                   (* subscript out of range, or too many indices *)
| TypeError                    (* [len], subscript or iteration the object lacks *)
| AttributeError               (* attribute the object lacks *)
| ValueError.                  (* numpy refuses the shapes *)

Inductive result (A : Type) : Type :=
| Ok (a : A)
| Raise (e : exn).

Arguments Ok {A} a.
Arguments Raise {A} e.

Definition bind {A B : Type} (m : result A) (k : A -> result B) : result B :=
  match m with
  | Ok a => k a
  | Raise e => Raise e
  end.

Definition raises {A : Type} (m : result A) : Prop :=
  exists e, m = Raise e.

Definition returns {A : Type} (m : result A) : Prop :=
  exists a, m = Ok a.

End Py.

Import Py.

Notation "x <- m ;; k" := (Py.bind m (fun x => k))
  (at level 61, m at next level, right associativity).

(** [raise "<msg>"].  Exceptions must be classes or instances derived from
    BaseException; for a string operand the statement itself fails, with
    TypeError, and the message does not reach the caller (Python 2.6 and
    later, Python 3). *)
Definition raise_str (msg : string) : exn := TypeError.

(** ** utilities.normInverse *)

Module Utilities.

Local Open Scope R_scope.

(** Modelled from the spec: [utilities.normInverse] is imported by
    [beamforming.py] but its module is not part of the sources.  The spec
    gives the offset at which a zero-mean Gaussian of standard deviation
    [sigma] has dropped to the fraction [value] of its peak as
    [sigma * sqrt (-2 * ln value)]; [mu] is the mean, which the only call
    site passes as [0].  The spec gives this for a fraction strictly
    between 0 and 1 only: what the function does with another [value],
    and whether it raises there, is not known, and no statement below is
    about such a value. *)
Definition normInverse (value mu sigma : R) : R :=
  sigma * sqrt (-2 * ln value) + mu.

End Utilities.

(** ** Python values crossing the adapter's boundary *)

Module PyObj.

(** The body of a katpoint target.  A target given by right ascension and
    declination has a body with the attributes [_ra] and [_dec], in
    radians; a target given by azimuth and elevation has a body without
    them. *)
Inductive target_body : Type :=
| RadecBody (ra dec : R)
| AzelBody (az el : R).

(** The arguments [check_antennas] and [check_source] inspect with
    [isinstance].  [NdArray items] is a numpy array with at least one
    axis, given by its items along the first axis; [NdArray0 o] is a
    zero-dimensional array. *)
Inductive pyobj : Type :=
| PyNone
| PyNum (x : R)
| PyStr (s : string)
| PyList (items : list pyobj)
| PyTuple (items : list pyobj)
| NdArray (items : list pyobj)
| NdArray0 (o : pyobj)
| KatAntenna (lat lon elev : R)       (* [katpoint.Antenna], its observer *)
| KatTarget (body : target_body).     (* [katpoint.Target] *)

Definition is_ndarray (o : pyobj) : bool :=
  match o with NdArray _ | NdArray0 _ => true | _ => false end.

Definition is_list (o : pyobj) : bool :=
  match o with PyList _ => true | _ => false end.

Definition is_tuple (o : pyobj) : bool :=
  match o with PyTuple _ => true | _ => false end.

Definition is_Antenna (o : pyobj) : bool :=
  match o with KatAntenna _ _ _ => true | _ => false end.

Definition is_Target (o : pyobj) : bool :=
  match o with KatTarget _ => true | _ => false end.

(** [o[0]]. *)
Definition getitem0 (o : pyobj) : result pyobj :=
  match o with
  | PyList (x :: _) | PyTuple (x :: _) | NdArray (x :: _) => Ok x
  | PyList [] | PyTuple [] | NdArray [] => Raise IndexError
  | NdArray0 _ => Raise IndexError
  | PyStr s =>
      match s with
      | String c _ => Ok (PyStr (String c EmptyString))
      | EmptyString => Raise IndexError
      end
  | _ => Raise TypeError
  end.

(** [len(o)]. *)
Definition len (o : pyobj) : result nat :=
  match o with
  | PyList l | PyTuple l | NdArray l => Ok (List.length l)
  | PyStr s => Ok (String.length s)
  | _ => Raise TypeError
  end.

(** [for x in o]: the items iterated over. *)
Definition iter (o : pyobj) : result (list pyobj) :=
  match o with
  | PyList l | PyTuple l | NdArray l => Ok l
  | _ => Raise TypeError
  end.

Local Open Scope R_scope.

Definition rad2deg (x : R) : R := x * 180 / PI.

End PyObj.

Import PyObj.

(** ** The observation engine (module [interferometer], external) *)

Record ObservationEngine : Type := {
  observation : Type;
  psf_image : Type;
  InterferometryObservation : R * R * R -> pyobj -> observation;
  setBoreSight : pyobj -> observation -> observation;
  setObserveTime : pyobj -> observation -> observation;
  createContour : pyobj -> observation -> observation;
  getBeamAxis : observation -> R * R * R;
  getHorizontal : observation -> list R;
  getPointSpreadFunction : observation -> psf_image
}.

(** ** BeamShape *)

Module BeamShape.

Local Open Scope R_scope.

Section Fields.

(** [psf] is opaque to this class. *)
Variable Psf : Type.

Record t : Type := Build {
  axisH : R;
  axisV : R;
  angle : R;
  psf : Psf;
  antennas : pyobj;
  bore_sight : pyobj;
  reference_antenna : R * R * R;
  horizon : list R
}.

(** [2.*np.sqrt(2.*np.log(2))], as the source writes it out. *)
Definition fwhm_factor : R := 23548200450309493 / 10000000000000000.

Definition sigmaH (self : t) : R := axisH self * (2 / fwhm_factor).
Definition sigmaV (self : t) : R := axisV self * (2 / fwhm_factor).

Definition width_at_overlap (self : t) (overlap : R) : result (R * R) :=
  let widthH := Utilities.normInverse overlap 0 (sigmaH self) in
  let widthV := Utilities.normInverse overlap 0 (sigmaV self) in
  Ok (widthH, widthV).

End Fields.

End BeamShape.

(** ** Widths, for the statements about [width_at_overlap] *)

Module Widths.

Local Open Scope R_scope.

(** The factor [sqrt (-2 * ln p)] every width is a multiple of. *)
Definition spread (p : R) : R := sqrt (-2 * ln p).

(** The width the specification's sentence describes: the axis read as a
    full width at half maximum. *)
Definition fwhm_width (axis overlap : R) : R :=
  axis / BeamShape.fwhm_factor * sqrt (-2 * ln overlap).

(** The width the code computes: the axis read as half of that width. *)
Definition semi_axis_width (axis overlap : R) : R :=
  axis * (2 / BeamShape.fwhm_factor) * sqrt (-2 * ln overlap).

(** The two widths, for statements about each of them. *)
Definition widthH {Psf : Type} (self : BeamShape.t Psf) (overlap : R) : R :=
  match BeamShape.width_at_overlap self overlap with
  | Ok w => fst w
  | Raise _ => 0
  end.

Definition widthV {Psf : Type} (self : BeamShape.t Psf) (overlap : R) : R :=
  match BeamShape.width_at_overlap self overlap with
  | Ok w => snd w
  | Raise _ => 0
  end.

End Widths.

(** ** PsfSim *)

Module PsfSim.

Local Open Scope R_scope.

Definition reference_antenna : R * R * R :=
  (- (3071106 / 100000), 2144389 / 100000, 1035).

(** Speed of light. *)
Definition sol : R := 299792458.

Section Adapter.

(** [np.array], a function of the numpy library. *)
Variable np_array : pyobj -> result pyobj.

Definition antenna_row (antenna : pyobj) : result pyobj :=
  match antenna with
  | KatAntenna lat lon elev =>
      Ok (PyList [PyNum (rad2deg lat); PyNum (rad2deg lon); PyNum elev])
  | _ => Raise AttributeError
  end.

Fixpoint antenna_rows (antennas : list pyobj) : result (list pyobj) :=
  match antennas with
  | [] => Ok []
  | antenna :: rest =>
      row <- antenna_row antenna ;;
      rows <- antenna_rows rest ;;
      Ok (row :: rows)
  end.

Definition check_antennas (antennas : pyobj) : result pyobj :=
  antennas <- np_array antennas ;;
  first <- getitem0 antennas ;;
  if is_ndarray first then Ok antennas
  else if is_Antenna first then
    items <- iter antennas ;;
    antenna_list <- antenna_rows items ;;
    np_array (PyList antenna_list)
  else Ok PyNone.

Definition check_source (source : pyobj) : result pyobj :=
  if is_ndarray source || is_list source || is_tuple source then Ok source
  else
    match source with
    | KatTarget (RadecBody ra dec) =>
        Ok (NdArray [PyNum (rad2deg ra); PyNum (rad2deg dec)])
    | KatTarget (AzelBody _ _) => Raise AttributeError
    | _ => Ok PyNone
    end.

(** The forms [check_source] recognizes. *)
Definition recognized_source (source : pyobj) : bool :=
  is_ndarray source || is_list source || is_tuple source || is_Target source.

(** The first items [check_antennas] recognizes. *)
Definition recognized_antenna (first : pyobj) : bool :=
  is_ndarray first || is_Antenna first.

Variable E : ObservationEngine.

Record t : Type := Build {
  observation : E.(observation);
  antennas : pyobj
}.

(** [float(sol)/np.array(frequencies)] for a list of frequencies; an
    array of shape [(1,)] is replaced by its only item. *)
Definition waveLengths (frequencies : list R) : pyobj :=
  match map (fun f => sol / f) frequencies with
  | [w] => PyNum w
  | ws => NdArray (map PyNum ws)
  end.

Definition init (antennas : pyobj) (frequencies : list R) : result t :=
  let waveLengths := waveLengths frequencies in
  let observation := E.(InterferometryObservation) reference_antenna waveLengths in
  antennas <- check_antennas antennas ;;
  Ok (Build observation antennas).

(** The outcome of the call and the object as the call leaves it. *)
Definition get_beam_shape (self : t) (source time : pyobj)
  : result (BeamShape.t E.(psf_image)) * t :=
  match len (antennas self) with
  | Raise e => (Raise e, self)
  | Ok n =>
      if (n <? 3)%nat then
        (Raise (raise_str "the number of antennas should be not less then 3"), self)
      else
        match check_source source with
        | Raise e => (Raise e, self)
        | Ok bore_sight =>
            let o := E.(setBoreSight) bore_sight (observation self) in
            let o := E.(setObserveTime) time o in
            let o := E.(createContour) (antennas self) o in
            let '(axisH, axisV, angle) := E.(getBeamAxis) o in
            let horizon := map rad2deg (E.(getHorizontal) o) in
            let psf := E.(getPointSpreadFunction) o in
            (Ok (BeamShape.Build axisH axisV angle psf (antennas self)
                   bore_sight reference_antenna horizon),
             Build o (antennas self))
        end
  end.

End Adapter.

End PsfSim.

(** ** Overlap *)

Module Overlap.

Local Open Scope Q_scope.

(** A value of a float array after a division: numpy does not raise on a
    zero divisor, it yields [nan] for [0/0] and [inf] for [x/0]. *)
Inductive npfloat : Type :=
| Finite (q : Q)
| Inf
| NaN.

(** [metrics] is a two-dimensional array of numbers, given by its rows:
    integer counts in mode "counter", summed responses in mode "heater". *)
Record t : Type := Build {
  metrics : list (list Q);
  mode : string
}.

(** [np.count_nonzero] of the mask [test] holds on. *)
Definition count_nonzero (test : Q -> bool) (a : list (list Q)) : nat :=
  List.length (filter test (List.concat a)).

Definition gt_1 (x : Q) : bool := negb (Qle_bool x 1).
Definition eq_1 (x : Q) : bool := Qeq_bool x 1.
Definition eq_0 (x : Q) : bool := Qeq_bool x 0.

(** The exact quotient of two counts. *)
Definition quotient (count point_num : nat) : Q :=
  inject_Z (Z.of_nat count) / inject_Z (Z.of_nat point_num).

Section Float.

(** Rounding to the nearest float64.  The counts of a grid are floats
    exactly, and their float quotient is the exact quotient rounded. *)
Variable round : Q -> Q.

(** [count / float(point_num)] on an array of counts. *)
Definition true_divide (count point_num : nat) : npfloat :=
  match point_num, count with
  | O, O => NaN
  | O, S _ => Inf
  | S _, _ => Finite (round (quotient count point_num))
  end.

Definition calculate_fractions (self : t)
  : result (npfloat * npfloat * npfloat) :=
  if negb (String.eqb (mode self) "counter") then
    Raise (raise_str "the fraction calculation is only supportted in counter mode")
  else
    let overlap_counter := metrics self in
    let overlap_grid := count_nonzero gt_1 overlap_counter in
    let non_overlap_grid := count_nonzero eq_1 overlap_counter in
    let empty_grid := count_nonzero eq_0 overlap_counter in
    let point_num := (overlap_grid + non_overlap_grid + empty_grid)%nat in
    Ok (true_divide overlap_grid point_num,
        true_divide non_overlap_grid point_num,
        true_divide empty_grid point_num).

End Float.

(** The number of sampled grid points. *)
Definition size (self : t) : nat := List.length (List.concat (metrics self)).

(** A non-negative integer count. *)
Definition is_count (x : Q) : Prop := exists n : nat, x == inject_Z (Z.of_nat n).

(** Half the distance of two neighbouring float64 in [1/2, 1], 2^-54: no
    number of [0, 1] is farther from the nearest float64. *)
Definition half_ulp : Q := 1 # 18014398509481984.

(** [x] is within [tol] of [y]. *)
Definition within (tol x y : Q) : Prop := y - tol <= x /\ x <= y + tol.

(** [round] is, on [0, 1], as accurate as rounding to the nearest float64. *)
Definition rounds_to_nearest (round : Q -> Q) : Prop :=
  forall q, 0 <= q -> q <= 1 -> within half_ulp (round q) q.

(** [round] is, on [-1, 2], as accurate as rounding to the nearest
    float64: neighbouring float64 in [1, 2] are 2^-52 apart, closer ones
    below. *)
Definition rounds_sums (round : Q -> Q) : Prop :=
  forall q, - (1) <= q -> q <= 2 -> within (2 * half_ulp) (round q) q.

(** The three fractions are numbers and add up to 1 within the tolerance
    of three roundings. *)
Definition sum_near_one (f : npfloat * npfloat * npfloat) : Prop :=
  match f with
  | (Finite a, Finite b, Finite c) => within (3 * half_ulp) (a + b + c) 1
  | _ => False
  end.

(** A grid of counts, for evaluation. *)
Definition counts (rows : list (list nat)) : list (list Q) :=
  map (map (fun n => inject_Z (Z.of_nat n))) rows.

End Overlap.

(** ** Tiling *)

(** The modules [tile], [beamshape] and [coordinate], external. *)
Record PackingEngine : Type := {
  ellipseCompact : nat -> R -> R -> R -> nat -> list (list R) * R;
  ellipseGrid : R -> R -> R -> R -> list (list R);
  calculateBeamOverlaps :
    list (list R) -> R -> R -> R -> R -> R -> string -> list (list Q);
  convert_pixel_coordinate_to_equatorial :
    list (list R) -> pyobj -> list (list R) * R
}.

Module Tiling.

Local Open Scope R_scope.

(** [a.T] of a two-dimensional array given by its rows. *)
Fixpoint transpose (a : list (list R)) : list (list R) :=
  match a with
  | [] => []
  | row :: rest =>
      match rest with
      | [] => map (fun x => [x]) row
      | _ :: _ => map (fun p => fst p :: snd p) (combine row (transpose rest))
      end
  end.

Section Methods.

Variable Psf : Type.
Variable P : PackingEngine.

Record t : Type := Build {
  coordinates : list (list R);
  beam_shape : BeamShape.t Psf;
  tiling_radius : R;
  beam_num : nat;
  overlap : R
}.

Definition init (coordinates : list (list R)) (beam_shape : BeamShape.t Psf)
  (radius overlap : R) : t :=
  Build coordinates beam_shape radius (List.length coordinates) overlap.

Definition calculate_overlap (self : t) (mode : string)
  (new_beam_shape : option (BeamShape.t Psf)) : Overlap.t :=
  let beam_shape :=
    match new_beam_shape with
    | None => beam_shape self
    | Some b => b
    end in
  let overlap_metrics :=
    P.(calculateBeamOverlaps) (coordinates self) (tiling_radius self)
      (BeamShape.axisH beam_shape) (BeamShape.axisV beam_shape)
      (BeamShape.angle beam_shape) (overlap self) mode in
  Overlap.Build overlap_metrics mode.

Definition get_equatorial_coordinates (self : t) : list (list R) :=
  fst (P.(convert_pixel_coordinate_to_equatorial) (coordinates self)
         (BeamShape.bore_sight (beam_shape self))).

(** The methods of the class, and what a call returns. *)
Inductive method : Type :=
| Plot_tiling (filename : string)
| Get_equatorial_coordinates
| Plot_sky_pattern (filename : string)
| Calculate_overlap (mode : string) (new_beam_shape : option (BeamShape.t Psf)).

Inductive value : Type :=
| VNone
| VCoordinates (c : list (list R))
| VOverlap (o : Overlap.t).

(** A method call: its outcome and the object as the call leaves it.  No
    method assigns to an attribute of [self]; drawing is not modelled. *)
Definition call (self : t) (m : method) : result value * t :=
  match m with
  | Plot_tiling _ =>
      (_ <- BeamShape.width_at_overlap (beam_shape self) (overlap self) ;;
       Ok VNone, self)
  | Get_equatorial_coordinates =>
      (Ok (VCoordinates (get_equatorial_coordinates self)), self)
  | Plot_sky_pattern _ =>
      let heats := calculate_overlap self "heater" None in
      (Ok VNone, self)
  | Calculate_overlap mode new_beam_shape =>
      (Ok (VOverlap (calculate_overlap self mode new_beam_shape)), self)
  end.

(** The object after a sequence of calls. *)
Fixpoint run (self : t) (ms : list method) : t :=
  match ms with
  | [] => self
  | m :: rest => run (snd (call self m)) rest
  end.

Definition generate_nbeams_tiling (beam_shape : BeamShape.t Psf)
  (beam_num : nat) (overlap : R) : result t :=
  w <- BeamShape.width_at_overlap beam_shape overlap ;;
  let '(widthH, widthV) := w in
  let '(tiling_coordinates, tiling_radius) :=
    P.(ellipseCompact) beam_num widthH widthV (BeamShape.angle beam_shape) 10%nat in
  let tiling_obj := init tiling_coordinates beam_shape tiling_radius overlap in
  Ok tiling_obj.

Definition generate_radius_tiling (beam_shape : BeamShape.t Psf)
  (tiling_radius overlap : R) : result t :=
  w <- BeamShape.width_at_overlap beam_shape overlap ;;
  let '(widthH, widthV) := w in
  let tiling_coordinates :=
    P.(ellipseGrid) tiling_radius widthH widthV (BeamShape.angle beam_shape) in
  let tiling_obj :=
    init (transpose tiling_coordinates) beam_shape tiling_radius overlap in
  Ok tiling_obj.

(** [beam_num == len(coordinates)]. *)
Definition invariant (self : t) : Prop :=
  beam_num self = List.length (coordinates self).

End Methods.

End Tiling.

(** ** DelayPolynomial *)

Module DelayPolynomial.

Local Open Scope Q_scope.

(** [sorted(dict_obj.iterkeys())]: a dict is given by its items; keys are
    compared as byte strings. *)
Fixpoint insert_key {V : Type} (kv : string * V) (l : list (string * V))
  : list (string * V) :=
  match l with
  | [] => [kv]
  | kv' :: rest =>
      if String.leb (fst kv) (fst kv') then kv :: l
      else kv' :: insert_key kv rest
  end.

Definition sorted_items {V : Type} (dict_obj : list (string * V))
  : list (string * V) :=
  fold_right insert_key [] dict_obj.

Definition dict_to_ordered_list {V : Type} (dict_obj : list (string * V))
  : list V :=
  map snd (sorted_items dict_obj).

(** [np.array] of a list of arrays: they must agree in length along
    their first axis. *)
Definition np_stack {A : Type} (l : list (list A)) : result (list (list A)) :=
  match l with
  | [] => Ok []
  | a :: rest =>
      if forallb (fun b => (List.length b =? List.length a)%nat) rest
      then Ok l
      else Raise ValueError
  end.

(** [a[::2]]. *)
Fixpoint every_other {A : Type} (a : list A) : list A :=
  match a with
  | [] => []
  | x :: rest =>
      x :: match rest with
           | [] => []
           | _ :: rest' => every_other rest'
           end
  end.

(** [a[:,0,:]] on an array of per-input sample lists. *)
Fixpoint first_samples {A : Type} (a : list (list A)) : result (list A) :=
  match a with
  | [] => Ok []
  | samples :: rest =>
      match samples with
      | [] => Raise IndexError
      | s :: _ => r <- first_samples rest ;; Ok (s :: r)
      end
  end.

Definition take_first_rate {A : Type} (a : list (list A)) : result (list A) :=
  match a with
  | [] => Raise IndexError        (* [np.array([])] has one axis only *)
  | _ :: _ => first_samples a
  end.

Section Float.

(** Rounding to the nearest float64: a float subtraction or addition is
    the exact one, rounded. *)
Variable round : Q -> Q.

(** The difference of two pairs (delay, rate), component by component. *)
Definition sub_pair (x y : Q * Q) : Q * Q :=
  (round (fst x - fst y), round (snd x - snd y)).

(** [a - a[0, :, :]], the row broadcast over the first axis. *)
Definition subtract_first (a : list (list (Q * Q)))
  : result (list (list (Q * Q))) :=
  match a with
  | [] => Raise IndexError
  | row0 :: _ =>
      Ok (map (fun row => map (fun p => sub_pair (fst p) (snd p)) (combine row row0)) a)
  end.

Section Katpoint.

(** The library [katpoint] and the module [coordinate], external. *)
Variables Target DateTime Antennas Reference Correction : Type.
Variable katpoint_Target : string -> Target.
Variables angleToHour angleToDEC : Q -> string.
Variable datetimeToEpoch : DateTime -> Q.
Variable DelayCorrection : Antennas -> Reference -> Q -> Correction.
(** [dc.corrections(target, timestamp)], its delay dict: per correlator
    input the samples of (delay, rate). *)
Variable corrections :
  Correction -> Target -> Q * Q -> list (string * list (Q * Q)).

(** An item of the [targets] argument: a katpoint target or a coordinate list. *)
Inductive target_arg : Type :=
| TargetObj (t : Target)
| Coords (c : list Q).

(** The [epoch] argument: a number or a datetime object. *)
Inductive time_arg : Type :=
| Number (q : Q)
| Datetime (d : DateTime).

Record t : Type := Build {
  antennas : Antennas;
  targets : list target_arg;
  frequency : Q;
  reference : Reference
}.

Definition make_target (source : target_arg) : result target_arg :=
  match source with
  | TargetObj _ => Raise TypeError
  | Coords (ra :: dec :: _) =>
      let target_string :=
        String.concat "," ["radec"%string; angleToHour ra; angleToDEC dec] in
      Ok (TargetObj (katpoint_Target target_string))
  | Coords _ => Raise IndexError
  end.

Fixpoint make_katpoint_target (sources : list target_arg)
  : result (list target_arg) :=
  match sources with
  | [] => Ok []
  | source :: rest =>
      target <- make_target source ;;
      targets <- make_katpoint_target rest ;;
      Ok (target :: targets)
  end.

Definition check_targets (targets : list target_arg)
  : result (list target_arg) :=
  match targets with
  | [] => Raise IndexError
  | TargetObj _ :: _ => Ok targets
  | Coords _ :: _ => make_katpoint_target targets
  end.

Definition check_time (time : time_arg) : Q :=
  match time with
  | Datetime d => datetimeToEpoch d
  | Number q => q
  end.

Definition init (antennas : Antennas) (targets : list target_arg)
  (reference : Reference) : result t :=
  targets <- check_targets targets ;;
  Ok (Build antennas targets 1400000000 reference).

(** The body of the loop over [self.targets]. *)
Definition target_delays (self : t) (timestamp : Q * Q) (target : target_arg)
  : result (list (Q * Q)) :=
  match target with
  | Coords _ => Raise AttributeError
  | TargetObj target =>
      let dc := DelayCorrection (antennas self) (reference self) (frequency self) in
      let delay := corrections dc target timestamp in
      delayArray <- np_stack (dict_to_ordered_list delay) ;;
      take_first_rate (every_other delayArray)
  end.

Fixpoint target_loop (self : t) (timestamp : Q * Q) (targets : list target_arg)
  : result (list (list (Q * Q))) :=
  match targets with
  | [] => Ok []
  | target :: rest =>
      row <- target_delays self timestamp target ;;
      rows <- target_loop self timestamp rest ;;
      Ok (row :: rows)
  end.

Definition get_delay_polynomials (self : t) (epoch : time_arg) (duration : Q)
  : result (list (list (Q * Q))) :=
  let timestamp := check_time epoch in
  let timestamp := (timestamp, round (timestamp + duration)) in
  target_array <- target_loop self timestamp (targets self) ;;
  target_array <- np_stack target_array ;;
  subtract_first target_array.

(** The delay dicts the oracle gives for the targets of [self] all have
    [inputs] correlator inputs with [samples] samples each. *)
Definition shaped (inputs samples : nat) (delay : list (string * list (Q * Q)))
  : bool :=
  (List.length delay =? inputs)%nat
  && forallb (fun kv => (List.length (snd kv) =? samples)%nat) delay.

Definition responses_shaped (self : t) (timestamp : Q * Q)
  (inputs samples : nat) : bool :=
  forallb
    (fun target =>
       match target with
       | TargetObj target =>
           shaped inputs samples
             (corrections
                (DelayCorrection (antennas self) (reference self) (frequency self))
                target timestamp)
       | Coords _ => false
       end)
    (targets self).

(** The time window of a query. *)
Definition window (epoch : time_arg) (duration : Q) : Q * Q :=
  (check_time epoch, round (check_time epoch + duration)).

End Katpoint.

End Float.

(** [round] gives zero for a difference that is zero. *)
Definition rounds_zero (round : Q -> Q) : Prop :=
  forall q, q == 0 -> round q == 0.

(** A row whose every delay and rate is zero. *)
Definition zero_row (row : list (Q * Q)) : Prop :=
  Forall (fun p => fst p == 0 /\ snd p == 0) row.

End DelayPolynomial.

(** ** Instances used to evaluate the model *)

Module Examples.

Local Open Scope R_scope.

(** A beam of semi-axes [axisH], [axisV], nothing else known. *)
Definition beam (axisH axisV : R) : BeamShape.t unit :=
  BeamShape.Build axisH axisV 0 tt PyNone PyNone PsfSim.reference_antenna [].

(** An engine that records the calls made on it and reports a fixed beam. *)
Definition recording_engine : ObservationEngine := {|
  observation := list string;
  psf_image := unit;
  InterferometryObservation := fun _ _ => [];
  setBoreSight := fun _ o => "setBoreSight"%string :: o;
  setObserveTime := fun _ o => "setObserveTime"%string :: o;
  createContour := fun _ o => "createContour"%string :: o;
  getBeamAxis := fun _ => (2, 1, 0);
  getHorizontal := fun _ => [0; 0];
  getPointSpreadFunction := fun _ => tt
|}.

Definition antenna (lat lon : R) : pyobj :=
  NdArray [PyNum lat; PyNum lon; PyNum 1035].

Definition two_antennas : pyobj :=
  NdArray [antenna 1 2; antenna 3 4].

Definition three_antennas : pyobj :=
  NdArray [antenna 1 2; antenna 3 4; antenna 5 6].

Definition sim (antennas : pyobj) : PsfSim.t recording_engine :=
  PsfSim.Build recording_engine [] antennas.

(** The length of a list, tuple or array, for [np_array]. *)
Definition row_length (o : pyobj) : option nat :=
  match o with
  | PyList r | PyTuple r | NdArray r => Some (List.length r)
  | _ => None
  end.

Definition same_length (n : nat) (o : pyobj) : bool :=
  match row_length o with
  | Some m => (m =? n)%nat
  | None => false
  end.

Definition as_row (o : pyobj) : pyobj :=
  match o with
  | PyList r | PyTuple r => NdArray r
  | _ => o
  end.

(** [np.array] on the arguments of the examples: an array is returned as
    it is; a list of lists of one length becomes a two-dimensional array,
    whose items are arrays; any other list becomes a one-dimensional array
    of its items; an object that is no sequence becomes a zero-dimensional
    array. *)
Definition np_array (o : pyobj) : result pyobj :=
  match o with
  | NdArray _ | NdArray0 _ => Ok o
  | PyList l | PyTuple l =>
      match l with
      | [] => Ok (NdArray [])
      | x :: rest =>
          match row_length x with
          | Some n =>
              if forallb (same_length n) rest then Ok (NdArray (map as_row l))
              else Ok (NdArray l)
          | None => Ok (NdArray l)
          end
      end
  | _ => Ok (NdArray0 o)
  end.

(** A packing engine that lays beams on a line. *)
Definition line_packing : PackingEngine := {|
  ellipseCompact := fun n w _ _ _ =>
    (map (fun i => [INR i * w; 0]) (seq 0 n), INR n * w);
  ellipseGrid := fun r w _ _ => [[0; w; - w]; [0; 0; 0]];
  calculateBeamOverlaps := fun c _ _ _ _ _ _ => map (fun _ => [1%Q]) c;
  convert_pixel_coordinate_to_equatorial := fun c _ => (c, 0)
|}.

(** A delay oracle over named antennas: two inputs per antenna, two
    samples per input, the delay growing with the lengths of the names. *)
Definition oracle_DelayCorrection (antennas : list string) (reference : string)
  (frequency : Q) : list string * Q :=
  (antennas, frequency).

Definition oracle_corrections (dc : list string * Q) (target : string)
  (timestamp : Q * Q) : list (string * list (Q * Q)) :=
  flat_map
    (fun name =>
       let d := inject_Z (Z.of_nat (String.length name + String.length target)) in
       [(String.append name "v", [(d, fst timestamp); (d, snd timestamp)]);
        (String.append name "h", [((d + snd dc)%Q, fst timestamp); (d, snd timestamp)])])
    (fst dc).

Definition four_antennas : list string :=
  ["m003"; "m000"; "m002"; "m001"]%string.

Definition delay_polynomial (targets : list (DelayPolynomial.target_arg string))
  : result (DelayPolynomial.t string (list string) string) :=
  DelayPolynomial.init (fun description : string => description)
    (fun ra : Q => if Qle_bool ra 180 then "6:00:00" else "18:00:00")%string
    (fun dec : Q => if Qle_bool dec 0 then "-30:00:00" else "30:00:00")%string
    four_antennas targets "m000"%string.

(** A rounding to the nearest multiple of 2^-53, the float64 grid on
    [1/2, 1] (float64 is finer below 1/2 and coarser above 1). *)
Definition round_2_53 (q : Q) : Q :=
  Qred (inject_Z (Qfloor (q * inject_Z 9007199254740992 + (1 # 2))%Q)
        / inject_Z 9007199254740992)%Q.

Definition delay_polynomials (self : DelayPolynomial.t string (list string) string)
  : result (list (list (Q * Q))) :=
  DelayPolynomial.get_delay_polynomials round_2_53 (fun d : Q => d)
    oracle_DelayCorrection oracle_corrections
    self (DelayPolynomial.Number Q 100%Q) 10%Q.

Definition two_targets : list (DelayPolynomial.target_arg string) :=
  [DelayPolynomial.TargetObj "boresight, radec, 4:37:15.8, -47:15:09.1"%string;
   DelayPolynomial.TargetObj "beam 1, radec, 4:37:20.0, -47:15:00.0"%string].

(** What the constructor builds from [four_antennas], [two_targets] and
    the reference "m000". *)
Definition delay_polynomial_object : DelayPolynomial.t string (list string) string :=
  DelayPolynomial.Build four_antennas two_targets 1400000000%Q "m000"%string.

End Examples.

(** ** Notions used in further statements *)

Module Notions.

(** The row [check_antennas] builds for a katpoint antenna. *)
Definition antenna_degrees (antenna : pyobj) : pyobj :=
  match antenna with
  | KatAntenna lat lon elev =>
      PyList [PyNum (rad2deg lat); PyNum (rad2deg lon); PyNum elev]
  | _ => antenna
  end.

(** A grid value one of the three masks of [calculate_fractions] holds on. *)
Definition classified (x : Q) : bool :=
  Overlap.gt_1 x || Overlap.eq_1 x || Overlap.eq_0 x.

(** [point_num] of [calculate_fractions]. *)
Definition point_num (self : Overlap.t) : nat :=
  (Overlap.count_nonzero Overlap.gt_1 (Overlap.metrics self)
   + Overlap.count_nonzero Overlap.eq_1 (Overlap.metrics self)
   + Overlap.count_nonzero Overlap.eq_0 (Overlap.metrics self))%nat.

(** [f] is a number within half an ulp of the exact quotient of [count]
    and [total]. *)
Definition near_quotient (f : Overlap.npfloat) (count total : nat) : Prop :=
  match f with
  | Overlap.Finite q => Overlap.within Overlap.half_ulp q (Overlap.quotient count total)
  | _ => False
  end.

(** [a + b + c] on floats: two additions, each rounded. *)
Definition float_sum (round : Q -> Q) (a b c : Q) : Q :=
  round (round (a + b) + c).

(** The order [sorted] puts the items of a dict in: by key. *)
Definition key_le {V : Type} (a b : string * V) : Prop :=
  String.leb (fst a) (fst b) = true.

(** The row of a target before the bore sight is subtracted: of the
    inputs of its delay dict in the order of their names, every other one,
    starting with the first, and of each the first sample. *)
Definition first_rate_row (delay : list (string * list (Q * Q))) : list (Q * Q) :=
  map (fun samples => hd (0, 0)%Q samples)
    (DelayPolynomial.every_other (DelayPolynomial.dict_to_ordered_list delay)).

(** The rows of all targets of [self], from the oracle, before the bore
    sight is subtracted. *)
Definition oracle_stack {Target Antennas Reference Correction : Type}
  (DelayCorrection : Antennas -> Reference -> Q -> Correction)
  (corrections : Correction -> Target -> Q * Q -> list (string * list (Q * Q)))
  (self : DelayPolynomial.t Target Antennas Reference) (timestamp : Q * Q)
  : list (list (Q * Q)) :=
  map (fun target =>
         match target with
         | DelayPolynomial.TargetObj target =>
             first_rate_row
               (corrections
                  (DelayCorrection (DelayPolynomial.antennas self)
                     (DelayPolynomial.reference self) (DelayPolynomial.frequency self))
                  target timestamp)
         | _ => []
         end)
    (DelayPolynomial.targets self).

(** The entry of antenna [j] in the row of target [i]. *)
Definition entry (a : list (list (Q * Q))) (i j : nat) : option (Q * Q) :=
  match nth_error a i with
  | Some row => nth_error row j
  | None => None
  end.

(** The target [make_katpoint_target] builds from the first two components
    of a coordinate list. *)
Definition target_of_coords {Target : Type} (katpoint_Target : string -> Target)
  (angleToHour angleToDEC : Q -> string) (c : list Q)
  : DelayPolynomial.target_arg Target :=
  DelayPolynomial.TargetObj
    (katpoint_Target
       (String.concat ","
          ["radec"%string; angleToHour (nth 0 c 0%Q); angleToDEC (nth 1 c 0%Q)])).

End Notions.

(** * Theorems *)

(** ** BeamShape.width_at_overlap *)

Module BeamShapeFacts.

Import Widths.

Local Open Scope R_scope.

Lemma fwhm_factor_pos : 0 < BeamShape.fwhm_factor.
Proof. unfold BeamShape.fwhm_factor. lra. Qed.

Lemma ln_neg (p : R) : 0 < p < 1 -> ln p < 0.
Proof.
  intros [H0 H1]. rewrite <- ln_1. now apply ln_increasing.
Qed.

Lemma spread_pos (p : R) : 0 < p < 1 -> 0 < spread p.
Proof.
  intros H. apply sqrt_lt_R0. pose proof (ln_neg H). lra.
Qed.

Lemma spread_decreasing (p1 p2 : R) :
  0 < p1 -> p1 < p2 -> p2 < 1 -> spread p2 < spread p1.
Proof.
  intros H0 H12 H1. unfold spread.
  assert (ln p1 < ln p2) by now apply ln_increasing.
  assert (ln p2 < 0) by (apply ln_neg; lra).
  apply sqrt_lt_1; lra.
Qed.

Lemma normInverse_zero_mean (value sigma : R) :
  Utilities.normInverse value 0 sigma = sigma * spread value.
Proof. unfold Utilities.normInverse, spread. ring. Qed.

Lemma width_at_overlap_eq (Psf : Type) (self : BeamShape.t Psf) (overlap : R) :
  BeamShape.width_at_overlap self overlap =
  Ok (BeamShape.sigmaH self * spread overlap,
      BeamShape.sigmaV self * spread overlap).
Proof.
  unfold BeamShape.width_at_overlap.
  now rewrite !normInverse_zero_mean.
Qed.

Lemma sigma_nonneg (axis : R) : 0 <= axis -> 0 <= axis * (2 / BeamShape.fwhm_factor).
Proof.
  intros H. pose proof fwhm_factor_pos as Hf.
  apply Rmult_le_pos; [assumption|].
  apply Rlt_le, Rdiv_lt_0_compat; lra.
Qed.

Lemma sigma_pos (axis : R) : 0 < axis -> 0 < axis * (2 / BeamShape.fwhm_factor).
Proof.
  intros H. pose proof fwhm_factor_pos as Hf.
  apply Rmult_lt_0_compat; [assumption|].
  apply Rdiv_lt_0_compat; lra.
Qed.

(** C1, as stated, fails: for the beam of semi-axes 1 and 1 and the overlap
    1/2 the code does not return the widths obtained from
    [sigma = axis / 2.3548200450309493]; it returns twice as much. *)
Lemma width_at_overlap_not_fwhm :
  0 < / 2 < 1 /\
  BeamShape.width_at_overlap (Examples.beam 1 1) (/ 2) <>
  Ok (fwhm_width 1 (/ 2), fwhm_width 1 (/ 2)).
Proof.
  split; [lra|].
  rewrite width_at_overlap_eq. unfold fwhm_width. fold (spread (/ 2)).
  intros H. injection H as H _. cbn in H.
  assert (Hs : 0 < spread (/ 2)) by (apply spread_pos; lra).
  pose proof fwhm_factor_pos as Hf.
  assert (E : 1 * (2 / BeamShape.fwhm_factor) = 1 / BeamShape.fwhm_factor).
  { apply Rmult_eq_reg_r with (r := spread (/ 2)); [exact H | lra]. }
  assert (E2 : 2 / BeamShape.fwhm_factor = 1 / BeamShape.fwhm_factor) by lra.
  unfold Rdiv in E2. apply Rmult_eq_reg_r in E2; [lra|].
  apply Rinv_neq_0_compat. lra.
Qed.

(** C1, amended: for every beam and every overlap in (0,1),
    [width_at_overlap] returns the pair obtained by converting each axis to
    a standard deviation by [sigma = axis * (2 / 2.3548200450309493)] and
    then, per axis, [x = sigma * sqrt (-2 * ln overlap)]. *)
Theorem width_at_overlap_semi_axis (Psf : Type) (self : BeamShape.t Psf) (overlap : R) :
  0 < overlap < 1 ->
  BeamShape.width_at_overlap self overlap =
  Ok (semi_axis_width (BeamShape.axisH self) overlap,
      semi_axis_width (BeamShape.axisV self) overlap).
Proof.
  intros _. now rewrite width_at_overlap_eq.
Qed.

Lemma width_at_overlap_semi_axis_witness :
  0 < / 2 < 1 /\
  BeamShape.width_at_overlap (Examples.beam 2 1) (/ 2) =
  Ok (semi_axis_width 2 (/ 2), semi_axis_width 1 (/ 2)).
Proof.
  split; [lra|].
  apply (@width_at_overlap_semi_axis unit (Examples.beam 2 1) (/ 2)). lra.
Defined.

Lemma widthH_eq (Psf : Type) (self : BeamShape.t Psf) (p : R) :
  widthH self p = BeamShape.sigmaH self * spread p.
Proof. unfold widthH. now rewrite width_at_overlap_eq. Qed.

Lemma widthV_eq (Psf : Type) (self : BeamShape.t Psf) (p : R) :
  widthV self p = BeamShape.sigmaV self * spread p.
Proof. unfold widthV. now rewrite width_at_overlap_eq. Qed.

(** C8, as stated, fails: a beam whose axes are 0 has widths 0 at the
    overlap 1/2, which are not strictly positive. *)
Lemma width_at_overlap_zero_beam :
  0 < / 2 < 1 /\
  ~ (0 < widthH (Examples.beam 0 0) (/ 2) /\ 0 < widthV (Examples.beam 0 0) (/ 2)).
Proof.
  split; [lra|].
  rewrite widthH_eq, widthV_eq. cbn.
  unfold BeamShape.sigmaH, BeamShape.sigmaV. cbn.
  intros [H _]. rewrite Rmult_0_l in H. lra.
Qed.

(** C8, amended: for every beam whose axes are not negative, both widths
    are monotonically decreasing in the overlap on (0,1): for p1 < p2 the
    widths at p1 are at least those at p2; and each width is strictly
    positive on (0,1) when its axis is strictly positive. *)
Theorem width_at_overlap_decreasing (Psf : Type) (self : BeamShape.t Psf) :
  0 <= BeamShape.axisH self ->
  0 <= BeamShape.axisV self ->
  (forall p1 p2, 0 < p1 -> p1 < p2 -> p2 < 1 ->
     widthH self p1 >= widthH self p2 /\ widthV self p1 >= widthV self p2) /\
  (forall p, 0 < p < 1 ->
     (0 < BeamShape.axisH self -> 0 < widthH self p) /\
     (0 < BeamShape.axisV self -> 0 < widthV self p)).
Proof.
  intros HH HV. split.
  - intros p1 p2 H0 H12 H1.
    rewrite !widthH_eq, !widthV_eq.
    pose proof (spread_decreasing H0 H12 H1) as Hs.
    pose proof (sigma_nonneg HH) as HsH. pose proof (sigma_nonneg HV) as HsV.
    fold (BeamShape.sigmaH self) in HsH. fold (BeamShape.sigmaV self) in HsV.
    split; apply Rle_ge, Rmult_le_compat_l; lra.
  - intros p Hp. pose proof (spread_pos Hp) as Hs.
    rewrite widthH_eq, widthV_eq.
    split; intros Hax; apply Rmult_lt_0_compat; try assumption;
      now apply sigma_pos.
Qed.

Lemma width_at_overlap_decreasing_witness :
  (forall p1 p2, 0 < p1 -> p1 < p2 -> p2 < 1 ->
     widthH (Examples.beam 2 1) p1 >= widthH (Examples.beam 2 1) p2 /\
     widthV (Examples.beam 2 1) p1 >= widthV (Examples.beam 2 1) p2) /\
  (forall p, 0 < p < 1 ->
     (0 < 2 -> 0 < widthH (Examples.beam 2 1) p) /\
     (0 < 1 -> 0 < widthV (Examples.beam 2 1) p)).
Proof.
  apply (@width_at_overlap_decreasing unit (Examples.beam 2 1)); simpl; lra.
Defined.

End BeamShapeFacts.

(** ** PsfSim *)

Module PsfSimFacts.

Local Open Scope nat_scope.

(** [check_source] ends with a value, or with the AttributeError of a
    katpoint target that has no right ascension. *)
Lemma check_source_outcome (source : pyobj) :
  (exists bore_sight, PsfSim.check_source source = Ok bore_sight) \/
  (exists az el,
     source = KatTarget (AzelBody az el) /\
     PsfSim.check_source source = Raise AttributeError).
Proof.
  destruct source as [| | | | | | | |[ra dec|az el]];
    try (left; eexists; reflexivity).
  right. exists az, el. split; reflexivity.
Qed.

(** C2, the code at the failing input and in general: with fewer than 3
    antennas [get_beam_shape] stops at its guard and leaves the object,
    and so the observation engine, as it was, but what the guard raises
    is a string, so that the call ends with TypeError and not with an
    error of insufficient antennas; with 3 antennas or more the guard is
    passed, and the call returns a beam shape when [check_source] returns,
    and ends with the error of [check_source] otherwise. *)
Theorem get_beam_shape_antenna_count (E : ObservationEngine)
  (self : PsfSim.t E) (source time : pyobj) (n : nat) :
  len (PsfSim.antennas self) = Ok n ->
  (n < 3 ->
   PsfSim.get_beam_shape self source time = (Raise TypeError, self)) /\
  (3 <= n ->
   forall bore_sight,
     PsfSim.check_source source = Ok bore_sight ->
     exists beam_shape self',
       PsfSim.get_beam_shape self source time = (Ok beam_shape, self') /\
       BeamShape.antennas beam_shape = PsfSim.antennas self /\
       BeamShape.bore_sight beam_shape = bore_sight) /\
  (3 <= n ->
   forall e,
     PsfSim.check_source source = Raise e ->
     PsfSim.get_beam_shape self source time = (Raise e, self)).
Proof.
  intros Hlen. unfold PsfSim.get_beam_shape. rewrite Hlen. split; [|split].
  - intros Hn. apply Nat.ltb_lt in Hn. now rewrite Hn.
  - intros Hn bore_sight Hsrc. apply Nat.ltb_ge in Hn. rewrite Hn, Hsrc.
    destruct (getBeamAxis E _) as [[axisH axisV] angle].
    eexists; eexists; repeat split; reflexivity.
  - intros Hn e Hsrc. apply Nat.ltb_ge in Hn. now rewrite Hn, Hsrc.
Qed.

Lemma get_beam_shape_antenna_count_witness :
  PsfSim.get_beam_shape (Examples.sim Examples.two_antennas) PyNone PyNone =
    (Raise TypeError, Examples.sim Examples.two_antennas).
Proof.
  apply (proj1 (@get_beam_shape_antenna_count Examples.recording_engine
                  (Examples.sim Examples.two_antennas) PyNone PyNone 2 eq_refl)).
  lia.
Defined.

(** C9, as stated, fails: a string is no recognized source, and
    [check_source] returns [None] for it instead of raising. *)
Lemma check_source_string_is_None :
  PsfSim.recognized_source (PyStr "J0437-4715") = false /\
  PsfSim.check_source (PyStr "J0437-4715") = Ok PyNone /\
  ~ Py.raises (PsfSim.check_source (PyStr "J0437-4715")).
Proof.
  split; [reflexivity|]. split; [reflexivity|].
  intros [e H]. discriminate H.
Qed.

(** C9, amended: [check_source] applied to an argument that is neither an
    array, list or tuple nor a katpoint target raises nothing and returns
    [None]; [check_antennas] applied to an argument whose array has a first
    item that is neither an array nor a katpoint antenna raises nothing and
    returns [None]. *)
Theorem unrecognized_input_is_None (np_array : pyobj -> result pyobj) :
  (forall source,
     PsfSim.recognized_source source = false ->
     PsfSim.check_source source = Ok PyNone) /\
  (forall antennas a first,
     np_array antennas = Ok a ->
     getitem0 a = Ok first ->
     PsfSim.recognized_antenna first = false ->
     PsfSim.check_antennas np_array antennas = Ok PyNone).
Proof.
  split.
  - intros source H. unfold PsfSim.recognized_source in H.
    apply orb_false_iff in H as [H Ht].
    unfold PsfSim.check_source. rewrite H.
    destruct source; try reflexivity. discriminate Ht.
  - intros antennas a first Ha Hfirst H.
    apply orb_false_iff in H as [Hnd Hant].
    unfold PsfSim.check_antennas. rewrite Ha. cbn. rewrite Hfirst. cbn.
    now rewrite Hnd, Hant.
Qed.

Lemma unrecognized_input_is_None_witness :
  PsfSim.check_source (PyNum 5) = Ok PyNone /\
  PsfSim.check_antennas Examples.np_array (PyList [PyNum 1; PyNum 2; PyNum 3]) = Ok PyNone.
Proof.
  split.
  - apply (proj1 (unrecognized_input_is_None Examples.np_array)). reflexivity.
  - apply (proj2 (unrecognized_input_is_None Examples.np_array)
             (PyList [PyNum 1; PyNum 2; PyNum 3])
             (NdArray [PyNum 1; PyNum 2; PyNum 3]) (PyNum 1));
      reflexivity.
Defined.

End PsfSimFacts.

(** ** Overlap.calculate_fractions *)

Module OverlapFacts.

Local Open Scope nat_scope.

Lemma class_of_count (x : Q) :
  Overlap.is_count x ->
  (if Overlap.gt_1 x then 1 else 0) + (if Overlap.eq_1 x then 1 else 0)
  + (if Overlap.eq_0 x then 1 else 0) = 1.
Proof.
  intros [n Hn]. unfold Overlap.gt_1, Overlap.eq_1, Overlap.eq_0.
  rewrite !Hn.
  unfold Qle_bool, Qeq_bool, inject_Z. cbn [Qnum Qden].
  destruct n as [|[|n]]; try reflexivity.
  replace (Z.leb (Z.of_nat (S (S n)) * 1) (1 * 1)) with false
    by (symmetry; apply Z.leb_gt; lia).
  replace (Z.of_nat (S (S n)) * 1 =? 1 * 1)%Z with false
    by (symmetry; apply Z.eqb_neq; lia).
  replace (Z.of_nat (S (S n)) * 1 =? 0 * 1)%Z with false
    by (symmetry; apply Z.eqb_neq; lia).
  reflexivity.
Qed.

Lemma filter_length_step {A : Type} (f : A -> bool) (x : A) (l : list A) :
  List.length (filter f (x :: l)) = (if f x then 1 else 0) + List.length (filter f l).
Proof. cbn. now destruct (f x). Qed.

(** On a grid of counts every point falls in exactly one of the three
    classes. *)
Lemma classes_partition (l : list Q) :
  Forall Overlap.is_count l ->
  List.length (filter Overlap.gt_1 l) + List.length (filter Overlap.eq_1 l)
  + List.length (filter Overlap.eq_0 l) = List.length l.
Proof.
  induction 1 as [|x l Hx Hl IH].
  - reflexivity.
  - rewrite !filter_length_step. pose proof (class_of_count Hx). cbn [List.length]. lia.
Qed.

Lemma fractions_sum (a b c : nat) :
  0 < a + b + c ->
  (Overlap.quotient a (a + b + c) + Overlap.quotient b (a + b + c)
   + Overlap.quotient c (a + b + c) == 1)%Q.
Proof.
  intros Hpos. unfold Overlap.quotient.
  rewrite !Nat2Z.inj_add, !inject_Z_plus.
  assert (Hn : ~ (inject_Z (Z.of_nat a) + inject_Z (Z.of_nat b) + inject_Z (Z.of_nat c) == 0)%Q).
  { rewrite <- !inject_Z_plus, <- !Nat2Z.inj_add.
    unfold Qeq, inject_Z. cbn [Qnum Qden]. lia. }
  field. exact Hn.
Qed.

Lemma quotient_between_0_and_1 (count total : nat) :
  count <= total -> 0 < total ->
  (0 <= Overlap.quotient count total /\ Overlap.quotient count total <= 1)%Q.
Proof.
  intros Hle Hpos. unfold Overlap.quotient.
  assert (Ht : (0 < inject_Z (Z.of_nat total))%Q).
  { unfold Qlt, inject_Z. cbn [Qnum Qden]. lia. }
  split.
  - apply Qle_shift_div_l; [exact Ht|].
    rewrite Qmult_0_l. unfold Qle, inject_Z. cbn [Qnum Qden]. lia.
  - apply Qle_shift_div_r; [exact Ht|].
    rewrite Qmult_1_l. unfold Qle, inject_Z. cbn [Qnum Qden]. lia.
Qed.

(** Three quotients of counts by their sum, each rounded to the nearest
    float, add up to 1 within three half ulps. *)
Lemma rounded_fractions_sum (round : Q -> Q) (a b c : nat) :
  Overlap.rounds_to_nearest round ->
  0 < a + b + c ->
  Overlap.within (3 * Overlap.half_ulp)
    (round (Overlap.quotient a (a + b + c))
     + round (Overlap.quotient b (a + b + c))
     + round (Overlap.quotient c (a + b + c))) 1.
Proof.
  intros Hround Hpos.
  pose proof (fractions_sum a b c Hpos) as Hsum.
  assert (Ha : a <= a + b + c) by lia.
  assert (Hb : b <= a + b + c) by lia.
  assert (Hc : c <= a + b + c) by lia.
  destruct (quotient_between_0_and_1 Ha Hpos) as [Ha0 Ha1].
  destruct (quotient_between_0_and_1 Hb Hpos) as [Hb0 Hb1].
  destruct (quotient_between_0_and_1 Hc Hpos) as [Hc0 Hc1].
  destruct (Hround _ Ha0 Ha1) as [Hal Hau].
  destruct (Hround _ Hb0 Hb1) as [Hbl Hbu].
  destruct (Hround _ Hc0 Hc1) as [Hcl Hcu].
  unfold Overlap.within, Overlap.half_ulp in *.
  split; Lqa.lra.
Qed.

(** The same three fractions added in floats, left to right, give 1 within
    seven half ulps: three from the divisions, two from each addition. *)
Lemma rounded_fractions_float_sum (round : Q -> Q) (a b c : nat) :
  Overlap.rounds_to_nearest round ->
  Overlap.rounds_sums round ->
  0 < a + b + c ->
  Overlap.within (7 * Overlap.half_ulp)
    (Notions.float_sum round
       (round (Overlap.quotient a (a + b + c)))
       (round (Overlap.quotient b (a + b + c)))
       (round (Overlap.quotient c (a + b + c)))) 1.
Proof.
  intros Hround Hsums Hpos.
  pose proof (fractions_sum a b c Hpos) as Hsum.
  assert (Ha : a <= a + b + c) by lia.
  assert (Hb : b <= a + b + c) by lia.
  assert (Hc : c <= a + b + c) by lia.
  destruct (quotient_between_0_and_1 Ha Hpos) as [Ha0 Ha1].
  destruct (quotient_between_0_and_1 Hb Hpos) as [Hb0 Hb1].
  destruct (quotient_between_0_and_1 Hc Hpos) as [Hc0 Hc1].
  destruct (Hround _ Ha0 Ha1) as [Hal Hau].
  destruct (Hround _ Hb0 Hb1) as [Hbl Hbu].
  destruct (Hround _ Hc0 Hc1) as [Hcl Hcu].
  unfold Notions.float_sum.
  set (qa := Overlap.quotient a (a + b + c)) in *.
  set (qb := Overlap.quotient b (a + b + c)) in *.
  set (qc := Overlap.quotient c (a + b + c)) in *.
  set (s := (round qa + round qb)%Q).
  unfold Overlap.within, Overlap.half_ulp in *.
  assert (Hs : (- (1) <= s /\ s <= 2)%Q) by (unfold s; split; Lqa.lra).
  destruct (Hsums s (proj1 Hs) (proj2 Hs)) as [Hsl Hsu].
  unfold Overlap.within, Overlap.half_ulp in *.
  set (u := (round s + round qc)%Q).
  assert (Hu : (- (1) <= u /\ u <= 2)%Q) by (unfold u, s in *; split; Lqa.lra).
  destruct (Hsums u (proj1 Hu) (proj2 Hu)) as [Hul Huu].
  unfold Overlap.within, Overlap.half_ulp in *.
  unfold u, s in *. split; Lqa.lra.
Qed.

(** The rounding of the examples is within half an ulp of every number. *)
Lemma round_2_53_within (q : Q) :
  Overlap.within Overlap.half_ulp (Examples.round_2_53 q) q.
Proof.
  unfold Overlap.within, Overlap.half_ulp, Examples.round_2_53.
  rewrite Qred_correct.
  set (x := (q * inject_Z 9007199254740992 + (1 # 2))%Q).
  pose proof (Qfloor_le x) as Hlo. pose proof (Qlt_floor x) as Hhi.
  rewrite inject_Z_plus in Hhi. revert Hlo Hhi.
  generalize (inject_Z (Qfloor x)). intros F Hlo Hhi.
  unfold x in Hlo, Hhi. clear x.
  assert (HK : (0 < inject_Z 9007199254740992)%Q) by reflexivity.
  split.
  - apply Qle_shift_div_l; [exact HK|].
    change (inject_Z 9007199254740992) with (9007199254740992 # 1)%Q in *.
    change (inject_Z 1) with (1 # 1)%Q in *. Lqa.lra.
  - apply Qle_shift_div_r; [exact HK|].
    change (inject_Z 9007199254740992) with (9007199254740992 # 1)%Q in *.
    change (inject_Z 1) with (1 # 1)%Q in *. Lqa.lra.
Qed.

Lemma round_2_53_nearest : Overlap.rounds_to_nearest Examples.round_2_53.
Proof. intros q _ _. apply round_2_53_within. Qed.

Lemma round_2_53_sums : Overlap.rounds_sums Examples.round_2_53.
Proof.
  intros q _ _. pose proof (round_2_53_within q) as H.
  unfold Overlap.within, Overlap.half_ulp in *. split; Lqa.lra.
Qed.

Lemma round_2_53_zero : DelayPolynomial.rounds_zero Examples.round_2_53.
Proof.
  intros q Hq. unfold Examples.round_2_53.
  rewrite Qred_correct, Hq. reflexivity.
Qed.

(** C5, as stated, fails: on a grid with no point the three counts are
    divided by zero, and what is returned is three times nan, which adds
    up to 1 within no tolerance. *)
Lemma calculate_fractions_empty_grid :
  Forall Overlap.is_count (List.concat (Overlap.metrics (Overlap.Build [] "counter"))) /\
  (forall round,
     Overlap.calculate_fractions round (Overlap.Build [] "counter")
     = Ok (Overlap.NaN, Overlap.NaN, Overlap.NaN)) /\
  ~ (exists round f,
       Overlap.calculate_fractions round (Overlap.Build [] "counter") = Ok f /\
       Overlap.sum_near_one f).
Proof.
  split; [constructor|]. split; [reflexivity|].
  intros [round [f [H Hs]]]. injection H as <-. exact Hs.
Qed.

(** C5, amended: for every Overlap in mode "counter" whose grid has at
    least one point and holds only non-negative integer counts, the counts
    of points with count > 1, == 1 and == 0 add up to the number of grid
    points, [calculate_fractions] returns each of them divided, in floats,
    by that number, and the three fractions add up to 1 within floating
    tolerance: their exact sum within three half ulps (3 * 2^-54), and
    their sum taken in floats, [(a + b) + c], within seven. *)
Theorem calculate_fractions_partition (round : Q -> Q) (self : Overlap.t) :
  Overlap.rounds_to_nearest round ->
  Overlap.mode self = "counter"%string ->
  Forall Overlap.is_count (List.concat (Overlap.metrics self)) ->
  0 < Overlap.size self ->
  let overlap_grid := Overlap.count_nonzero Overlap.gt_1 (Overlap.metrics self) in
  let non_overlap_grid := Overlap.count_nonzero Overlap.eq_1 (Overlap.metrics self) in
  let empty_grid := Overlap.count_nonzero Overlap.eq_0 (Overlap.metrics self) in
  overlap_grid + non_overlap_grid + empty_grid = Overlap.size self /\
  Overlap.calculate_fractions round self =
    Ok (Overlap.Finite (round (Overlap.quotient overlap_grid (Overlap.size self))),
        Overlap.Finite (round (Overlap.quotient non_overlap_grid (Overlap.size self))),
        Overlap.Finite (round (Overlap.quotient empty_grid (Overlap.size self)))) /\
  Overlap.within (3 * Overlap.half_ulp)
    (round (Overlap.quotient overlap_grid (Overlap.size self))
     + round (Overlap.quotient non_overlap_grid (Overlap.size self))
     + round (Overlap.quotient empty_grid (Overlap.size self))) 1 /\
  (Overlap.rounds_sums round ->
   Overlap.within (7 * Overlap.half_ulp)
     (Notions.float_sum round
        (round (Overlap.quotient overlap_grid (Overlap.size self)))
        (round (Overlap.quotient non_overlap_grid (Overlap.size self)))
        (round (Overlap.quotient empty_grid (Overlap.size self)))) 1).
Proof.
  intros Hround Hmode Hcounts Hsize a b c.
  assert (Hsum : a + b + c = Overlap.size self)
    by (apply classes_partition; exact Hcounts).
  split; [exact Hsum|]. split; [|split].
  - unfold Overlap.calculate_fractions. rewrite Hmode.
    change (String.eqb "counter" "counter") with true. cbn [negb].
    fold a b c. rewrite Hsum.
    destruct (Overlap.size self) as [|k] eqn:Hk; [lia|]. reflexivity.
  - rewrite <- Hsum. apply rounded_fractions_sum; [exact Hround | lia].
  - intros Hsums. rewrite <- Hsum.
    apply rounded_fractions_float_sum; [exact Hround | exact Hsums | lia].
Qed.

Lemma calculate_fractions_partition_witness :
  Overlap.calculate_fractions Examples.round_2_53
    (Overlap.Build (Overlap.counts [[0; 1; 2]; [1; 1; 3]]) "counter") =
  Ok (Overlap.Finite (Examples.round_2_53 (Overlap.quotient 2 6)),
      Overlap.Finite (Examples.round_2_53 (Overlap.quotient 3 6)),
      Overlap.Finite (Examples.round_2_53 (Overlap.quotient 1 6))) /\
  Overlap.within (3 * Overlap.half_ulp)
    (Examples.round_2_53 (Overlap.quotient 2 6)
     + Examples.round_2_53 (Overlap.quotient 3 6)
     + Examples.round_2_53 (Overlap.quotient 1 6)) 1 /\
  (Overlap.rounds_sums Examples.round_2_53 ->
   Overlap.within (7 * Overlap.half_ulp)
     (Notions.float_sum Examples.round_2_53
        (Examples.round_2_53 (Overlap.quotient 2 6))
        (Examples.round_2_53 (Overlap.quotient 3 6))
        (Examples.round_2_53 (Overlap.quotient 1 6))) 1).
Proof.
  apply (@calculate_fractions_partition Examples.round_2_53
           (Overlap.Build (Overlap.counts [[0; 1; 2]; [1; 1; 3]]) "counter")).
  - exact round_2_53_nearest.
  - reflexivity.
  - repeat constructor; eexists; reflexivity.
  - cbn. lia.
Defined.

(** C6, the code at the failing input and in general: in every mode other
    than "counter", "heater" among them, [calculate_fractions] stops at its
    guard and returns nothing, but what the guard raises is a string, so
    that the call ends with TypeError and not with an error of unsupported
    mode; in mode "counter" the guard is passed and the call returns. *)
Theorem calculate_fractions_mode (round : Q -> Q) (self : Overlap.t) :
  (Overlap.mode self <> "counter"%string ->
   Overlap.calculate_fractions round self = Raise TypeError) /\
  (Overlap.mode self = "counter"%string ->
   Py.returns (Overlap.calculate_fractions round self)).
Proof.
  unfold Overlap.calculate_fractions. split.
  - intros H. apply String.eqb_neq in H. now rewrite H.
  - intros H. apply String.eqb_eq in H. rewrite H. cbn [negb].
    eexists; reflexivity.
Qed.

Lemma calculate_fractions_mode_witness :
  Overlap.calculate_fractions Examples.round_2_53
    (Overlap.Build [[(1 # 2)%Q]] "heater")
  = Raise TypeError.
Proof.
  apply (proj1 (calculate_fractions_mode Examples.round_2_53
                  (Overlap.Build [[(1 # 2)%Q]] "heater"))).
  discriminate.
Defined.

End OverlapFacts.

(** ** DelayPolynomial *)

Module DelayPolynomialFacts.

Import DelayPolynomial.

Local Open Scope nat_scope.

Section Arrays.

Context {A : Type}.

(** Induction two items at a time, as [every_other] recurses. *)
Lemma pairs_ind (P : list A -> Prop) :
  P [] -> (forall x, P [x]) -> (forall x y l, P l -> P (x :: y :: l)) ->
  forall l, P l.
Proof.
  intros H0 H1 H2 l.
  enough (P l /\ forall x, P (x :: l)) by tauto.
  induction l as [|y l [IH1 IH2]]; split; auto.
Qed.

Lemma every_other_Forall (P : A -> Prop) (l : list A) :
  Forall P l -> Forall P (every_other l).
Proof.
  induction l as [|x|x y l IH] using pairs_ind; intros H.
  - constructor.
  - exact H.
  - inversion H as [|? ? Hx Hyl]; subst. inversion Hyl; subst.
    cbn. constructor; auto.
Qed.

Lemma every_other_length (l : list A) :
  List.length (every_other l) = Nat.div2 (S (List.length l)).
Proof.
  induction l as [|x|x y l IH] using pairs_ind.
  - reflexivity.
  - reflexivity.
  - cbn [every_other List.length]. rewrite IH. reflexivity.
Qed.

Lemma first_samples_shaped (samples : nat) (a : list (list A)) :
  0 < samples ->
  Forall (fun s => List.length s = samples) a ->
  exists r, first_samples a = Ok r /\ List.length r = List.length a.
Proof.
  intros Hpos. induction 1 as [|s a Hs Ha [r [IH Hr]]].
  - now exists [].
  - destruct s as [|x s]; [cbn in Hs; lia|].
    exists (x :: r). cbn. rewrite IH. cbn. now rewrite Hr.
Qed.

Lemma first_samples_hd (default : A) (samples : nat) (a : list (list A)) :
  0 < samples ->
  Forall (fun s => List.length s = samples) a ->
  first_samples a = Ok (map (hd default) a).
Proof.
  intros Hpos. induction 1 as [|s a Hs Ha IH]; [reflexivity|].
  destruct s as [|x s]; [cbn in Hs; lia|].
  cbn. now rewrite IH.
Qed.

Lemma np_stack_shaped (n : nat) (l : list (list A)) :
  Forall (fun b => List.length b = n) l -> np_stack l = Ok l.
Proof.
  intros H. destruct l as [|a rest]; [reflexivity|].
  inversion H as [|? ? Ha Hrest]; subst. unfold np_stack.
  replace (forallb _ rest) with true; [reflexivity|].
  symmetry. apply forallb_forall. intros b Hb.
  apply Nat.eqb_eq. rewrite Forall_forall in Hrest. now apply Hrest.
Qed.

Lemma np_stack_inv (l l' : list (list A)) : np_stack l = Ok l' -> l' = l.
Proof.
  destruct l as [|a rest]; cbn.
  - now intros [= <-].
  - destruct (forallb _ rest); [now intros [= <-] | discriminate].
Qed.

Lemma insert_key_length (kv : string * A) (l : list (string * A)) :
  List.length (insert_key kv l) = S (List.length l).
Proof.
  induction l as [|kv' l IH]; [reflexivity|].
  cbn. destruct (String.leb (fst kv) (fst kv')); cbn; [reflexivity | now rewrite IH].
Qed.

Lemma insert_key_Forall (P : string * A -> Prop) (kv : string * A)
  (l : list (string * A)) :
  P kv -> Forall P l -> Forall P (insert_key kv l).
Proof.
  intros Hkv. induction 1 as [|kv' l Hkv' Hl IH]; cbn.
  - now repeat constructor.
  - destruct (String.leb (fst kv) (fst kv')); repeat constructor; auto.
Qed.

Lemma dict_to_ordered_list_length (d : list (string * A)) :
  List.length (dict_to_ordered_list d) = List.length d.
Proof.
  unfold dict_to_ordered_list, sorted_items. rewrite length_map.
  induction d as [|kv d IH]; [reflexivity|].
  cbn. now rewrite insert_key_length, IH.
Qed.

Lemma dict_to_ordered_list_Forall (P : A -> Prop) (d : list (string * A)) :
  Forall (fun kv => P (snd kv)) d -> Forall P (dict_to_ordered_list d).
Proof.
  intros H. unfold dict_to_ordered_list. apply Forall_map.
  unfold sorted_items. induction H as [|kv d Hkv Hd IH]; cbn.
  - constructor.
  - now apply insert_key_Forall.
Qed.

End Arrays.

Lemma sub_self_zero (round : Q -> Q) (row : list (Q * Q)) :
  rounds_zero round ->
  zero_row (map (fun p => sub_pair round (fst p) (snd p)) (combine row row)).
Proof.
  intros Hz. unfold zero_row. induction row as [|x row IH]; cbn; constructor.
  - cbn. split; apply Hz, Qplus_opp_r.
  - exact IH.
Qed.

Lemma subtract_first_row0 (round : Q -> Q) (a arr : list (list (Q * Q))) :
  rounds_zero round ->
  subtract_first round a = Ok arr ->
  exists row0 rest,
    arr = row0 :: rest /\ zero_row row0 /\ List.length arr = List.length a /\
    List.length row0 = List.length (hd [] a).
Proof.
  intros Hz. destruct a as [|r0 a]; cbn; [discriminate|].
  intros [= <-]. eexists; eexists. split; [reflexivity|].
  split; [now apply sub_self_zero|].
  split; [cbn; now rewrite length_map|].
  rewrite length_map, length_combine. apply Nat.min_id.
Qed.

Lemma nth_error_combine {A B : Type} (l : list A) (l' : list B) (j : nat)
  (x : A) (y : B) :
  nth_error l j = Some x -> nth_error l' j = Some y ->
  nth_error (combine l l') j = Some (x, y).
Proof.
  revert l l'. induction j as [|j IH]; intros [|a l] [|b l']; cbn; try discriminate.
  - now intros [= ->] [= ->].
  - apply IH.
Qed.

(** What [a - a[0, :, :]] holds: in every row, at every place, the
    difference to the entry of row 0 at that place, as floats. *)
Lemma subtract_first_entries (round : Q -> Q) (a out : list (list (Q * Q)))
  (i j : nat) (d r d0 r0 : Q) :
  subtract_first round a = Ok out ->
  Notions.entry a i j = Some (d, r) ->
  Notions.entry a 0 j = Some (d0, r0) ->
  Notions.entry out i j = Some (round (d - d0), round (r - r0))%Q.
Proof.
  destruct a as [|row0 rest]; [discriminate|].
  intros H. assert (Hout : out = map (fun row => map (fun p => sub_pair round (fst p) (snd p))
                                                   (combine row row0)) (row0 :: rest))
    by (unfold subtract_first in H; congruence).
  subst out. clear H. unfold Notions.entry.
  rewrite nth_error_map.
  destruct (nth_error (row0 :: rest) i) as [row|]; [|discriminate].
  cbn [option_map nth_error]. intros Hij H0j.
  rewrite nth_error_map, (nth_error_combine _ _ _ Hij H0j). reflexivity.
Qed.

Lemma shaped_spec (inputs samples : nat) (delay : list (string * list (Q * Q))) :
  shaped inputs samples delay = true ->
  List.length delay = inputs /\
  Forall (fun kv => List.length (snd kv) = samples) delay.
Proof.
  unfold shaped. intros H. apply andb_true_iff in H as [Hl Hs].
  apply Nat.eqb_eq in Hl. split; [exact Hl|].
  apply Forall_forall. intros kv Hkv.
  rewrite forallb_forall in Hs. apply Nat.eqb_eq. now apply Hs.
Qed.

Section Katpoint.

Variables Target DateTime Antennas Reference Correction : Type.
Variable katpoint_Target : string -> Target.
Variables angleToHour angleToDEC : Q -> string.
Variable datetimeToEpoch : DateTime -> Q.
Variable DelayCorrection : Antennas -> Reference -> Q -> Correction.
Variable corrections :
  Correction -> Target -> Q * Q -> list (string * list (Q * Q)).
Variable round : Q -> Q.

Local Abbreviation init := (init katpoint_Target angleToHour angleToDEC).
Local Abbreviation get_delay_polynomials :=
  (get_delay_polynomials round datetimeToEpoch DelayCorrection corrections).
Local Abbreviation window := (window round datetimeToEpoch).
Local Abbreviation oracle_stack := (Notions.oracle_stack DelayCorrection corrections).

Lemma make_katpoint_target_length (sources targets : list (target_arg Target)) :
  make_katpoint_target katpoint_Target angleToHour angleToDEC sources = Ok targets ->
  List.length targets = List.length sources.
Proof.
  revert targets. induction sources as [|source rest IH]; intros targets; cbn.
  - now intros [= <-].
  - destruct (make_target _ _ _ source) as [target|e]; cbn; [|discriminate].
    destruct (make_katpoint_target _ _ _ rest) as [targets'|e]; cbn; [|discriminate].
    intros [= <-]. cbn. now rewrite (IH targets').
Qed.

Lemma init_targets_nonempty (antennas : Antennas)
  (targets : list (target_arg Target)) (reference : Reference)
  (self : t Target Antennas Reference) :
  init antennas targets reference = Ok self ->
  DelayPolynomial.targets self <> [].
Proof.
  unfold DelayPolynomial.init, check_targets.
  destruct targets as [|[target|c] rest].
  - discriminate.
  - cbn. intros [= <-]. discriminate.
  - destruct (make_katpoint_target katpoint_Target angleToHour angleToDEC
                (Coords Target c :: rest)) as [ts|e] eqn:E; [|discriminate].
    cbn [bind]. intros [= <-]. cbn. apply make_katpoint_target_length in E.
    destruct ts; [discriminate E | discriminate].
Qed.

Lemma init_frequency (antennas : Antennas)
  (targets : list (target_arg Target)) (reference : Reference)
  (self : t Target Antennas Reference) :
  init antennas targets reference = Ok self ->
  frequency self = 1400000000%Q /\
  DelayPolynomial.antennas self = antennas /\
  DelayPolynomial.reference self = reference.
Proof.
  unfold DelayPolynomial.init.
  destruct (check_targets _ _ _ targets) as [ts|e]; cbn; [|discriminate].
  intros [= <-]. repeat split.
Qed.

Lemma target_delays_shaped (self : t Target Antennas Reference)
  (timestamp : Q * Q) (target : Target) (inputs samples : nat) :
  0 < inputs -> 0 < samples ->
  shaped inputs samples
    (corrections
       (DelayCorrection (DelayPolynomial.antennas self)
          (DelayPolynomial.reference self) (frequency self))
       target timestamp) = true ->
  target_delays DelayCorrection corrections self timestamp (TargetObj target)
  = Ok (Notions.first_rate_row
          (corrections
             (DelayCorrection (DelayPolynomial.antennas self)
                (DelayPolynomial.reference self) (frequency self))
             target timestamp)) /\
  List.length
    (Notions.first_rate_row
       (corrections
          (DelayCorrection (DelayPolynomial.antennas self)
             (DelayPolynomial.reference self) (frequency self))
          target timestamp))
  = Nat.div2 (S inputs).
Proof.
  intros Hi Hs H. apply shaped_spec in H as [Hlen Hall].
  unfold Notions.first_rate_row.
  unfold target_delays.
  set (delay := corrections _ target timestamp) in *.
  pose proof (dict_to_ordered_list_Forall
                (fun s : list (Q * Q) => List.length s = samples) Hall) as Hord.
  rewrite (np_stack_shaped Hord). cbn.
  pose proof (dict_to_ordered_list_length delay) as Hl.
  destruct (dict_to_ordered_list delay) as [|a l] eqn:El; [cbn in Hl; lia|].
  pose proof (every_other_Forall Hord) as Hev.
  pose proof (every_other_length (a :: l)) as Hevl.
  pose proof (first_samples_hd (0, 0)%Q Hs Hev) as Hr.
  split.
  - unfold take_first_rate. change (every_other (a :: l)) with
      (a :: match l with [] => [] | _ :: rest' => every_other rest' end) in *.
    exact Hr.
  - rewrite length_map, Hevl, Hl, Hlen. reflexivity.
Qed.

Lemma target_loop_shaped (self : t Target Antennas Reference)
  (timestamp : Q * Q) (inputs samples : nat) (targets : list (target_arg Target)) :
  0 < inputs -> 0 < samples ->
  forallb
    (fun target =>
       match target with
       | TargetObj target =>
           shaped inputs samples
             (corrections
                (DelayCorrection (DelayPolynomial.antennas self)
                   (DelayPolynomial.reference self) (frequency self))
                target timestamp)
       | Coords _ _ => false
       end) targets = true ->
  exists rows,
    target_loop DelayCorrection corrections self timestamp targets = Ok rows /\
    rows = Notions.oracle_stack DelayCorrection corrections
             (Build (DelayPolynomial.antennas self) targets (frequency self)
                (DelayPolynomial.reference self)) timestamp /\
    List.length rows = List.length targets /\
    Forall (fun row => List.length row = Nat.div2 (S inputs)) rows.
Proof.
  intros Hi Hs. induction targets as [|target rest IH]; intros H.
  - exists []. repeat split. constructor.
  - cbn in H. apply andb_true_iff in H as [Ht Hrest].
    destruct target as [target|c]; [|discriminate].
    destruct (target_delays_shaped self timestamp target Hi Hs Ht) as [Hrow Hl].
    destruct (IH Hrest) as [rows [Hrows [Hstack [Hlen Hall]]]].
    eexists. cbn [target_loop]. rewrite Hrow. cbn [bind]. rewrite Hrows. cbn [bind].
    split; [reflexivity|]. split; [|split].
    + unfold Notions.oracle_stack. cbn. now rewrite Hstack.
    + cbn. now rewrite Hlen.
    + now constructor.
Qed.

(** Whenever the call returns, the first row of what it returns is zero. *)
Lemma returned_row0_zero (self : t Target Antennas Reference)
  (epoch : time_arg DateTime) (duration : Q) (arr : list (list (Q * Q))) :
  rounds_zero round ->
  get_delay_polynomials self epoch duration = Ok arr ->
  exists row0 rest, arr = row0 :: rest /\ zero_row row0.
Proof.
  intros Hround. unfold DelayPolynomial.get_delay_polynomials.
  destruct (target_loop _ _ self _ _) as [rows|e]; cbn; [|discriminate].
  destruct (np_stack rows) as [rows'|e]; cbn; [|discriminate].
  intros H. apply (@subtract_first_row0 round rows' arr Hround) in H
    as [row0 [rest [H [Hz _]]]].
  now exists row0, rest.
Qed.

Lemma subtract_first_lengths (k : nat) (a out : list (list (Q * Q))) :
  subtract_first round a = Ok out ->
  Forall (fun row => List.length row = k) a ->
  List.length out = List.length a /\
  Forall (fun row => List.length row = k) out.
Proof.
  destruct a as [|row0 rest]; [discriminate|].
  intros H Hall.
  assert (Hout : out = map (fun row => map (fun p => sub_pair round (fst p) (snd p))
                                          (combine row row0)) (row0 :: rest))
    by (unfold subtract_first in H; congruence).
  subst out. clear H. split; [now rewrite length_map|].
  apply Forall_map. inversion Hall as [|? ? Hrow0 _]; subst.
  eapply Forall_impl; [|exact Hall]. cbn. intros row Hrow.
  rewrite length_map, length_combine, Hrow. apply Nat.min_id.
Qed.

(** C3: for a delay polynomial object built from any antennas, targets and
    reference, and an oracle whose delay dicts have one shape for all
    targets, [get_delay_polynomials] returns, for every epoch and duration,
    an array with one row per target and one entry per antenna, of the shape
    of the oracle's stack, in which every entry is the entry of the stack
    at that place minus the one of target 0 at that place, in delay and in
    rate (a float subtraction each); so that the row of target 0 is zero
    throughout. *)
Theorem delays_are_relative_to_boresight (antennas : Antennas)
  (targets : list (target_arg Target)) (reference : Reference)
  (self : t Target Antennas Reference)
  (epoch : time_arg DateTime) (duration : Q) (inputs samples : nat) :
  init antennas targets reference = Ok self ->
  0 < inputs -> 0 < samples ->
  rounds_zero round ->
  responses_shaped DelayCorrection corrections self
    (window epoch duration) inputs samples = true ->
  exists out,
    get_delay_polynomials self epoch duration = Ok out /\
    List.length out = List.length (DelayPolynomial.targets self) /\
    List.length (oracle_stack self (window epoch duration))
    = List.length (DelayPolynomial.targets self) /\
    Forall (fun row => List.length row = Nat.div2 (S inputs)) out /\
    Forall (fun row => List.length row = Nat.div2 (S inputs))
      (oracle_stack self (window epoch duration)) /\
    (forall i j d r d0 r0,
       Notions.entry (oracle_stack self (window epoch duration)) i j = Some (d, r) ->
       Notions.entry (oracle_stack self (window epoch duration)) 0 j = Some (d0, r0) ->
       Notions.entry out i j = Some (round (d - d0), round (r - r0))%Q) /\
    zero_row (hd [] out).
Proof.
  intros Hinit Hi Hs Hround Hshape.
  pose proof (init_targets_nonempty _ _ _ Hinit) as Hne.
  unfold responses_shaped in Hshape.
  destruct (target_loop_shaped self _ _ Hi Hs Hshape)
    as [rows [Hrows [Hstack [Hlen Hall]]]].
  assert (Hself : rows = oracle_stack self (window epoch duration))
    by (rewrite Hstack; destruct self; reflexivity).
  unfold DelayPolynomial.get_delay_polynomials.
  fold (window epoch duration). rewrite Hrows. cbn [bind].
  rewrite (np_stack_shaped Hall). cbn [bind].
  destruct (subtract_first round rows) as [out|e] eqn:E.
  - exists out. split; [reflexivity|].
    destruct (@subtract_first_lengths (Nat.div2 (S inputs)) rows out E Hall)
      as [Hl Hout].
    split; [congruence|]. split; [rewrite <- Hself; exact Hlen|].
    split; [exact Hout|].
    split; [now rewrite <- Hself|]. split.
    + intros i j d r d0 r0. rewrite <- Hself.
      now apply (@subtract_first_entries round rows out i j d r d0 r0).
    + destruct (@subtract_first_row0 round rows out Hround E)
        as [row0 [rest [-> [Hz _]]]].
      exact Hz.
  - destruct rows as [|row0 rest]; [|discriminate E].
    destruct (DelayPolynomial.targets self); [congruence | discriminate Hlen].
Qed.

Lemma target_loop_frequency (DelayCorrection' : Antennas -> Reference -> Q -> Correction)
  (self : t Target Antennas Reference) (timestamp : Q * Q)
  (targets : list (target_arg Target)) :
  frequency self = 1400000000%Q ->
  (forall a r, DelayCorrection' a r 1400000000%Q = DelayCorrection a r 1400000000%Q) ->
  target_loop DelayCorrection' corrections self timestamp targets =
  target_loop DelayCorrection corrections self timestamp targets.
Proof.
  intros Hf Hext. induction targets as [|target rest IH]; [reflexivity|].
  cbn [target_loop]. rewrite IH.
  destruct target as [target|c]; [|reflexivity].
  unfold target_delays. now rewrite Hf, Hext.
Qed.

(** C10: a delay polynomial object built by the constructor, which takes
    antennas, targets and a reference and no frequency, has the frequency
    1.4e9, and its delay-correction queries are made at that frequency:
    what [get_delay_polynomials] returns depends on the oracle at 1.4e9
    only. *)
Theorem frequency_is_fixed (antennas : Antennas)
  (targets : list (target_arg Target)) (reference : Reference)
  (self : t Target Antennas Reference) :
  init antennas targets reference = Ok self ->
  frequency self = 1400000000%Q /\
  forall DelayCorrection' : Antennas -> Reference -> Q -> Correction,
    (forall a r, DelayCorrection' a r 1400000000%Q = DelayCorrection a r 1400000000%Q) ->
    forall epoch duration,
      DelayPolynomial.get_delay_polynomials round datetimeToEpoch DelayCorrection'
        corrections self epoch duration =
      get_delay_polynomials self epoch duration.
Proof.
  intros Hinit. destruct (init_frequency _ _ _ Hinit) as [Hf _].
  split; [exact Hf|].
  intros DelayCorrection' Hext epoch duration.
  unfold DelayPolynomial.get_delay_polynomials.
  now rewrite (target_loop_frequency _ _ _ _ Hf Hext).
Qed.

End Katpoint.

Lemma delays_are_relative_to_boresight_witness :
  exists out,
    Examples.delay_polynomials Examples.delay_polynomial_object = Ok out /\
    List.length out = 2 /\
    List.length
      (Notions.oracle_stack Examples.oracle_DelayCorrection Examples.oracle_corrections
         Examples.delay_polynomial_object
         (window Examples.round_2_53 (fun d : Q => d) (Number Q 100%Q) 10%Q)) = 2 /\
    Forall (fun row => List.length row = 4) out /\
    Forall (fun row => List.length row = 4)
      (Notions.oracle_stack Examples.oracle_DelayCorrection Examples.oracle_corrections
         Examples.delay_polynomial_object
         (window Examples.round_2_53 (fun d : Q => d) (Number Q 100%Q) 10%Q)) /\
    (forall i j d r d0 r0,
       Notions.entry
         (Notions.oracle_stack Examples.oracle_DelayCorrection Examples.oracle_corrections
            Examples.delay_polynomial_object
            (window Examples.round_2_53 (fun d : Q => d) (Number Q 100%Q) 10%Q)) i j
       = Some (d, r) ->
       Notions.entry
         (Notions.oracle_stack Examples.oracle_DelayCorrection Examples.oracle_corrections
            Examples.delay_polynomial_object
            (window Examples.round_2_53 (fun d : Q => d) (Number Q 100%Q) 10%Q)) 0 j
       = Some (d0, r0) ->
       Notions.entry out i j
       = Some (Examples.round_2_53 (d - d0), Examples.round_2_53 (r - r0))%Q) /\
    zero_row (hd [] out).
Proof.
  apply (@delays_are_relative_to_boresight string Q (list string) string
           (list string * Q)%type
           (fun description : string => description)
           (fun _ : Q => "0:00:00"%string) (fun _ : Q => "0:00:00"%string)
           (fun d : Q => d)
           Examples.oracle_DelayCorrection Examples.oracle_corrections
           Examples.round_2_53
           Examples.four_antennas Examples.two_targets "m000"%string
           Examples.delay_polynomial_object (Number Q 100%Q) 10%Q 8 2).
  - reflexivity.
  - lia.
  - lia.
  - exact OverlapFacts.round_2_53_zero.
  - vm_compute. reflexivity.
Defined.

Lemma frequency_is_fixed_witness :
  frequency Examples.delay_polynomial_object = 1400000000%Q /\
  forall DelayCorrection' : list string -> string -> Q -> list string * Q,
    (forall a r, DelayCorrection' a r 1400000000%Q
                 = Examples.oracle_DelayCorrection a r 1400000000%Q) ->
    forall (epoch : time_arg Q) (duration : Q),
      get_delay_polynomials Examples.round_2_53 (fun d : Q => d) DelayCorrection'
        Examples.oracle_corrections Examples.delay_polynomial_object epoch duration =
      get_delay_polynomials Examples.round_2_53 (fun d : Q => d)
        Examples.oracle_DelayCorrection
        Examples.oracle_corrections Examples.delay_polynomial_object epoch duration.
Proof.
  apply (@frequency_is_fixed string Q (list string) string (list string * Q)%type
           (fun description : string => description)
           (fun _ : Q => "0:00:00"%string) (fun _ : Q => "0:00:00"%string)
           (fun d : Q => d)
           Examples.oracle_DelayCorrection Examples.oracle_corrections
           Examples.round_2_53
           Examples.four_antennas Examples.two_targets "m000"%string
           Examples.delay_polynomial_object).
  reflexivity.
Defined.

End DelayPolynomialFacts.

(** ** Tiling *)

Module TilingFacts.

Import Tiling.

Section Packing.

Variable Psf : Type.
Variable P : PackingEngine.

Lemma init_invariant (coordinates : list (list R)) (beam_shape : BeamShape.t Psf)
  (radius overlap : R) :
  invariant (init coordinates beam_shape radius overlap).
Proof. reflexivity. Qed.

Lemma call_keeps_self (self : t Psf) (m : method Psf) :
  snd (call P self m) = self.
Proof. destruct m; reflexivity. Qed.

Lemma run_keeps_self (self : t Psf) (ms : list (method Psf)) :
  run P self ms = self.
Proof.
  revert self. induction ms as [|m ms IH]; intros self; [reflexivity|].
  cbn [run]. now rewrite call_keeps_self.
Qed.

(** C4: [beam_num == len(coordinates)] holds for the tiling the
    constructor builds, for the tilings both generators return, and
    after any sequence of method calls on a tiling on which it holds. *)
Theorem beam_num_is_len_coordinates :
  (forall coordinates (beam_shape : BeamShape.t Psf) radius overlap,
     invariant (init coordinates beam_shape radius overlap)) /\
  (forall (beam_shape : BeamShape.t Psf) beam_num overlap,
     exists tiling,
       generate_nbeams_tiling P beam_shape beam_num overlap = Ok tiling /\
       invariant tiling) /\
  (forall (beam_shape : BeamShape.t Psf) tiling_radius overlap,
     exists tiling,
       generate_radius_tiling P beam_shape tiling_radius overlap = Ok tiling /\
       invariant tiling) /\
  (forall (self : t Psf) (ms : list (method Psf)),
     invariant self -> invariant (run P self ms)).
Proof.
  split; [exact init_invariant|]. split; [|split].
  - intros beam_shape beam_num overlap.
    unfold generate_nbeams_tiling.
    rewrite BeamShapeFacts.width_at_overlap_eq. cbn [bind].
    destruct (ellipseCompact P _ _ _ _ _) as [tiling_coordinates tiling_radius].
    eexists. split; [reflexivity | apply init_invariant].
  - intros beam_shape tiling_radius overlap.
    unfold generate_radius_tiling.
    rewrite BeamShapeFacts.width_at_overlap_eq. cbn [bind].
    eexists. split; [reflexivity | apply init_invariant].
  - intros self ms H. now rewrite run_keeps_self.
Qed.

End Packing.

End TilingFacts.

(** ** The model evaluated on the example instances *)

Module Evaluation.

Import DelayPolynomial.

Example check_antennas_rows :
  PsfSim.check_antennas Examples.np_array
    (PyList [PyList [PyNum 1; PyNum 2; PyNum 1035];
             PyList [PyNum 3; PyNum 4; PyNum 1035]])
  = Ok Examples.two_antennas.
Proof. reflexivity. Qed.

Example check_antennas_katpoint :
  PsfSim.check_antennas Examples.np_array (PyList [KatAntenna 0 0 1035])
  = Ok (NdArray [NdArray [PyNum (rad2deg 0); PyNum (rad2deg 0); PyNum 1035]]).
Proof. reflexivity. Qed.

Example check_antennas_empty :
  PsfSim.check_antennas Examples.np_array (PyList []) = Raise IndexError.
Proof. reflexivity. Qed.

Example check_source_target :
  PsfSim.check_source (KatTarget (RadecBody 0 0))
  = Ok (NdArray [PyNum (rad2deg 0); PyNum (rad2deg 0)]).
Proof. reflexivity. Qed.

Example check_source_azel_target :
  PsfSim.check_source (KatTarget (AzelBody 10 20)) = Raise AttributeError.
Proof. reflexivity. Qed.

Example get_beam_shape_calls_engine :
  PsfSim.observation
    (snd (PsfSim.get_beam_shape (Examples.sim Examples.three_antennas) PyNone PyNone))
  = ["createContour"; "setObserveTime"; "setBoreSight"]%string.
Proof. reflexivity. Qed.

Example calculate_fractions_grid :
  Overlap.calculate_fractions Examples.round_2_53
    (Overlap.Build (Overlap.counts [[0; 1; 2]; [1; 1; 3]]%nat) "counter")
  = Ok (Overlap.Finite (3002399751580331 # 9007199254740992),
        Overlap.Finite (1 # 2),
        Overlap.Finite (1501199875790165 # 9007199254740992)).
Proof. vm_compute. reflexivity. Qed.

Example calculate_fractions_fractional_grid :
  Overlap.calculate_fractions Examples.round_2_53
    (Overlap.Build [[(1 # 2)%Q; 1%Q]] "counter")
  = Ok (Overlap.Finite 0, Overlap.Finite 1, Overlap.Finite 0).
Proof. vm_compute. reflexivity. Qed.

Example transpose_grid :
  Tiling.transpose [[1; 2; 3]; [4; 5; 6]]%R = [[1; 4]; [2; 5]; [3; 6]]%R.
Proof. reflexivity. Qed.

Example radius_tiling_beam_num :
  exists tiling,
    Tiling.generate_radius_tiling Examples.line_packing (Examples.beam 2 1) 10 (/ 2)
    = Ok tiling /\
    Tiling.beam_num tiling = 3%nat.
Proof. eexists. split; reflexivity. Qed.

Example nbeams_tiling_beam_num :
  exists tiling,
    Tiling.generate_nbeams_tiling Examples.line_packing (Examples.beam 2 1) 5 (/ 2)
    = Ok tiling /\
    Tiling.beam_num tiling = 5%nat.
Proof. eexists. split; reflexivity. Qed.

Example dict_to_ordered_list_sorts :
  dict_to_ordered_list [("m001h", 3%nat); ("m000v", 2%nat); ("m000h", 1%nat); ("m001v", 4%nat)]%string
  = [1; 2; 3; 4]%nat.
Proof. reflexivity. Qed.

Example every_other_inputs : every_other [1; 2; 3; 4; 5]%nat = [1; 3; 5]%nat.
Proof. reflexivity. Qed.

Example delay_polynomials_two_targets :
  Examples.delay_polynomials Examples.delay_polynomial_object
  = Ok [[(0, 0); (0, 0); (0, 0); (0, 0)]; [(-3 # 1, 0); (-3 # 1, 0); (-3 # 1, 0); (-3 # 1, 0)]]%Q.
Proof. vm_compute. reflexivity. Qed.

Example delay_polynomials_no_target :
  check_targets (fun s : string => s) (fun _ : Q => "0"%string) (fun _ : Q => "0"%string) []
  = Raise IndexError.
Proof. reflexivity. Qed.

Example constructor_converts_coordinates :
  Examples.delay_polynomial [Coords string [10; 20]%Q; Coords string [200; -20]%Q]
  = Ok (Build Examples.four_antennas
          [TargetObj "radec,6:00:00,30:00:00"%string;
           TargetObj "radec,18:00:00,-30:00:00"%string]
          1400000000%Q "m000"%string).
Proof. reflexivity. Qed.

End Evaluation.

(** * Further properties *)

(** ** PsfSim: input normalization and the antenna guard *)

Module PsfSimMore.

Import Notions.

Local Open Scope nat_scope.

Lemma antenna_rows_degrees (items : list pyobj) :
  Forall (fun x => is_Antenna x = true) items ->
  PsfSim.antenna_rows items = Ok (map antenna_degrees items).
Proof.
  induction 1 as [|x items Hx Hitems IH]; [reflexivity|].
  cbn [PsfSim.antenna_rows map]. rewrite IH.
  destruct x; try discriminate Hx. reflexivity.
Qed.

(** A sequence of katpoint antennas is turned into one row
    [lat deg, lon deg, elev] per antenna, in the order given, and that list
    of rows is what is handed to [np.array]. *)
Theorem check_antennas_katpoint_rows (np_array : pyobj -> result pyobj)
  (antennas : pyobj) (items : list pyobj) :
  np_array antennas = Ok (NdArray items) ->
  items <> [] ->
  Forall (fun x => is_Antenna x = true) items ->
  PsfSim.check_antennas np_array antennas
  = np_array (PyList (map antenna_degrees items)).
Proof.
  intros Ha Hne Hall. unfold PsfSim.check_antennas. rewrite Ha. cbn [bind].
  destruct items as [|first rest]; [congruence|].
  cbn [getitem0 bind]. inversion Hall as [|? ? Hfirst _]; subst.
  destruct first; try discriminate Hfirst. cbn [is_ndarray is_Antenna iter bind].
  now rewrite (antenna_rows_degrees Hall).
Qed.

Lemma check_antennas_katpoint_rows_witness :
  PsfSim.check_antennas Examples.np_array
    (PyList [KatAntenna 1 2 1035; KatAntenna 3 4 1040])
  = Examples.np_array
      (PyList (map antenna_degrees [KatAntenna 1 2 1035; KatAntenna 3 4 1040])).
Proof.
  apply (@check_antennas_katpoint_rows Examples.np_array
           (PyList [KatAntenna 1 2 1035; KatAntenna 3 4 1040])
           [KatAntenna 1 2 1035; KatAntenna 3 4 1040]).
  - reflexivity.
  - discriminate.
  - repeat constructor.
Defined.

(** An argument whose array is empty, or has no axis at all (a single
    object), makes [check_antennas] fail with IndexError on its first
    subscript. *)
Theorem check_antennas_no_first_item (np_array : pyobj -> result pyobj)
  (antennas a : pyobj) :
  np_array antennas = Ok a ->
  (a = NdArray [] \/ exists o, a = NdArray0 o) ->
  PsfSim.check_antennas np_array antennas = Raise IndexError.
Proof.
  intros Ha H. unfold PsfSim.check_antennas. rewrite Ha. cbn [bind].
  destruct H as [-> | [o ->]]; reflexivity.
Qed.

Lemma check_antennas_no_first_item_witness :
  PsfSim.check_antennas Examples.np_array (PyTuple []) = Raise IndexError /\
  PsfSim.check_antennas Examples.np_array (KatAntenna 1 2 1035) = Raise IndexError.
Proof.
  split.
  - apply (@check_antennas_no_first_item Examples.np_array (PyTuple []) (NdArray []));
      [reflexivity | now left].
  - apply (@check_antennas_no_first_item Examples.np_array (KatAntenna 1 2 1035)
             (NdArray0 (KatAntenna 1 2 1035)));
      [reflexivity | right; now eexists].
Defined.

(** [check_source] raises for one kind of argument only, a katpoint target
    without right ascension and declination, and then AttributeError; for
    every other argument it returns, and what it returns is returned
    unchanged when passed through it again. *)
Theorem check_source_idempotent (source : pyobj) :
  (exists az el,
     source = KatTarget (AzelBody az el) /\
     PsfSim.check_source source = Raise AttributeError) \/
  (exists bore_sight,
     PsfSim.check_source source = Ok bore_sight /\
     PsfSim.check_source bore_sight = Ok bore_sight).
Proof.
  destruct source as [| | | | | | | |[ra dec|az el]];
    try (right; eexists; split; reflexivity).
  left. exists az, el. split; reflexivity.
Qed.

(** A katpoint target and the array of its right ascension and declination
    in degrees are the same pointing to [get_beam_shape]: the beam shape
    returned and the state the engine is left in are equal. *)
Lemma get_beam_shape_target_or_degrees (E : ObservationEngine)
  (self : PsfSim.t E) (ra dec : R) (time : pyobj) :
  PsfSim.get_beam_shape self (KatTarget (RadecBody ra dec)) time
  = PsfSim.get_beam_shape self (NdArray [PyNum (rad2deg ra); PyNum (rad2deg dec)]) time.
Proof. reflexivity. Qed.

(** Antennas that [check_antennas] does not recognize are accepted by the
    constructor, which stores [None]; the failure shows at the first
    [get_beam_shape], as a TypeError of [len], before the engine is
    touched. *)
Theorem unrecognized_antennas_fail_late (np_array : pyobj -> result pyobj)
  (E : ObservationEngine) (antennas a first : pyobj) (frequencies : list R)
  (source time : pyobj) :
  np_array antennas = Ok a ->
  getitem0 a = Ok first ->
  PsfSim.recognized_antenna first = false ->
  exists self,
    PsfSim.init np_array E antennas frequencies = Ok self /\
    PsfSim.antennas self = PyNone /\
    PsfSim.get_beam_shape self source time = (Raise TypeError, self).
Proof.
  intros Ha Hfirst Hrec.
  apply orb_false_iff in Hrec as [Hnd Hant].
  unfold PsfSim.init, PsfSim.check_antennas.
  rewrite Ha. cbn [bind]. rewrite Hfirst. cbn [bind]. rewrite Hnd, Hant. cbn [bind].
  eexists. split; [reflexivity|]. split; reflexivity.
Qed.

Lemma unrecognized_antennas_fail_late_witness :
  exists self,
    PsfSim.init Examples.np_array Examples.recording_engine
      (PyList [PyNum 1; PyNum 2; PyNum 3]) [1400000000%R] = Ok self /\
    PsfSim.antennas self = PyNone /\
    PsfSim.get_beam_shape self PyNone PyNone = (Raise TypeError, self).
Proof.
  apply (@unrecognized_antennas_fail_late Examples.np_array Examples.recording_engine
           (PyList [PyNum 1; PyNum 2; PyNum 3])
           (NdArray [PyNum 1; PyNum 2; PyNum 3]) (PyNum 1));
    reflexivity.
Defined.

Lemma get_beam_shape_keeps_antennas (E : ObservationEngine)
  (self : PsfSim.t E) (source time : pyobj) :
  PsfSim.antennas (snd (PsfSim.get_beam_shape self source time))
  = PsfSim.antennas self.
Proof.
  unfold PsfSim.get_beam_shape.
  destruct (len (PsfSim.antennas self)) as [n|e]; [|reflexivity].
  destruct (n <? 3); [reflexivity|].
  destruct (PsfSim.check_source source) as [bore_sight|e]; [|reflexivity].
  destruct (getBeamAxis E _) as [[axisH axisV] angle]. reflexivity.
Qed.

Lemma get_beam_shape_guard (E : ObservationEngine)
  (self : PsfSim.t E) (source time : pyobj) :
  (forall n, len (PsfSim.antennas self) = Ok n -> n < 3) ->
  PsfSim.get_beam_shape self source time = (Raise TypeError, self).
Proof.
  intros H. unfold PsfSim.get_beam_shape.
  destruct (len (PsfSim.antennas self)) as [n|e] eqn:Hlen.
  - specialize (H n eq_refl). apply Nat.ltb_lt in H. now rewrite H.
  - destruct (PsfSim.antennas self); cbn in Hlen; congruence.
Qed.

(** No call of [get_beam_shape] changes the antennas, so the antenna guard
    gives one verdict for the life of the object: when the antennas have no
    length or fewer than 3 items, a call ends with TypeError and leaves the
    object as it was, and so does every call after it, whatever the sources
    and times. *)
Theorem antenna_guard_is_stable (E : ObservationEngine)
  (self : PsfSim.t E) (source time source' time' : pyobj) :
  PsfSim.antennas (snd (PsfSim.get_beam_shape self source time))
  = PsfSim.antennas self /\
  ((forall n, len (PsfSim.antennas self) = Ok n -> n < 3) ->
   PsfSim.get_beam_shape self source time = (Raise TypeError, self) /\
   PsfSim.get_beam_shape
     (snd (PsfSim.get_beam_shape self source time)) source' time'
   = (Raise TypeError, self)).
Proof.
  split; [apply get_beam_shape_keeps_antennas|].
  intros H. rewrite (get_beam_shape_guard self source time H). cbn [snd].
  split; [reflexivity | now apply get_beam_shape_guard].
Qed.

(** A source that [check_source] does not recognize does not stop
    [get_beam_shape]: with 3 antennas or more the engine is given [None]
    as bore sight, and the beam shape returned has the bore sight [None]. *)
Theorem unrecognized_source_reaches_engine (E : ObservationEngine)
  (self : PsfSim.t E) (source time : pyobj) (n : nat) :
  len (PsfSim.antennas self) = Ok n ->
  3 <= n ->
  PsfSim.recognized_source source = false ->
  PsfSim.observation (snd (PsfSim.get_beam_shape self source time))
  = createContour E (PsfSim.antennas self)
      (setObserveTime E time (setBoreSight E PyNone (PsfSim.observation self))) /\
  exists beam_shape,
    fst (PsfSim.get_beam_shape self source time) = Ok beam_shape /\
    BeamShape.bore_sight beam_shape = PyNone.
Proof.
  intros Hlen Hn Hrec. unfold PsfSim.get_beam_shape. rewrite Hlen.
  apply Nat.ltb_ge in Hn. rewrite Hn.
  assert (Hsrc : PsfSim.check_source source = Ok PyNone).
  { unfold PsfSim.recognized_source in Hrec.
    apply orb_false_iff in Hrec as [Hrec Ht].
    unfold PsfSim.check_source. rewrite Hrec.
    destruct source; try reflexivity. discriminate Ht. }
  rewrite Hsrc.
  destruct (getBeamAxis E _) as [[axisH axisV] angle].
  split; [reflexivity|]. eexists. split; reflexivity.
Qed.

Lemma unrecognized_source_reaches_engine_witness :
  PsfSim.observation
    (snd (PsfSim.get_beam_shape (Examples.sim Examples.three_antennas)
            (PyStr "J0437-4715") PyNone))
  = createContour Examples.recording_engine Examples.three_antennas
      (setObserveTime Examples.recording_engine PyNone
         (setBoreSight Examples.recording_engine PyNone [])) /\
  exists beam_shape,
    fst (PsfSim.get_beam_shape (Examples.sim Examples.three_antennas)
           (PyStr "J0437-4715") PyNone) = Ok beam_shape /\
    BeamShape.bore_sight beam_shape = PyNone.
Proof.
  apply (@unrecognized_source_reaches_engine Examples.recording_engine
           (Examples.sim Examples.three_antennas) (PyStr "J0437-4715") PyNone 3).
  - reflexivity.
  - lia.
  - reflexivity.
Defined.

End PsfSimMore.

(** ** BeamShape: the shape of the ellipse at an overlap level *)

Module BeamShapeMore.

Import Widths.

Local Open Scope R_scope.


(** For a beam of strictly positive axes both widths are strictly
    decreasing in the overlap on (0,1): a larger overlap level always
    gives a strictly smaller ellipse. *)
Theorem width_at_overlap_strictly_decreasing (Psf : Type) (self : BeamShape.t Psf)
  (p1 p2 : R) :
  0 < BeamShape.axisH self -> 0 < BeamShape.axisV self ->
  0 < p1 -> p1 < p2 -> p2 < 1 ->
  widthH self p2 < widthH self p1 /\ widthV self p2 < widthV self p1.
Proof.
  intros HH HV H0 H12 H1.
  rewrite !BeamShapeFacts.widthH_eq, !BeamShapeFacts.widthV_eq.
  pose proof (BeamShapeFacts.spread_decreasing H0 H12 H1) as Hs.
  pose proof (BeamShapeFacts.sigma_pos HH) as HsH.
  pose proof (BeamShapeFacts.sigma_pos HV) as HsV.
  fold (BeamShape.sigmaH self) in HsH. fold (BeamShape.sigmaV self) in HsV.
  split; apply Rmult_lt_compat_l; assumption.
Qed.

Lemma width_at_overlap_strictly_decreasing_witness :
  widthH (Examples.beam 2 1) (/ 2) < widthH (Examples.beam 2 1) (/ 4) /\
  widthV (Examples.beam 2 1) (/ 2) < widthV (Examples.beam 2 1) (/ 4).
Proof.
  apply (@width_at_overlap_strictly_decreasing unit (Examples.beam 2 1) (/ 4) (/ 2));
    simpl; lra.
Defined.

End BeamShapeMore.

(** ** Overlap: the occupancy fractions on arbitrary grids *)

Module OverlapMore.

Import Notions.

Local Open Scope nat_scope.

Lemma filter_length_le {A : Type} (f : A -> bool) (l : list A) :
  List.length (filter f l) <= List.length l.
Proof.
  induction l as [|x l IH]; [apply Nat.le_refl|].
  cbn. destruct (f x); cbn; lia.
Qed.

(** The three masks exclude one another. *)
Lemma masks_exclusive (x : Q) :
  (if Overlap.gt_1 x then 1 else 0) + (if Overlap.eq_1 x then 1 else 0)
  + (if Overlap.eq_0 x then 1 else 0)
  = if classified x then 1 else 0.
Proof.
  unfold classified, Overlap.gt_1, Overlap.eq_1, Overlap.eq_0.
  destruct (Qle_bool x 1) eqn:Hle, (Qeq_bool x 1) eqn:H1, (Qeq_bool x 0) eqn:H0;
    cbn; try reflexivity; exfalso.
  - apply Qeq_bool_iff in H1, H0. rewrite H1 in H0. discriminate H0.
  - apply Qeq_bool_iff in H1. rewrite H1 in Hle. discriminate Hle.
  - apply Qeq_bool_iff in H1. rewrite H1 in Hle. discriminate Hle.
  - apply Qeq_bool_iff in H0. rewrite H0 in Hle. discriminate Hle.
Qed.

Lemma point_num_classified (l : list Q) :
  List.length (filter Overlap.gt_1 l) + List.length (filter Overlap.eq_1 l)
  + List.length (filter Overlap.eq_0 l)
  = List.length (filter classified l).
Proof.
  induction l as [|x l IH]; [reflexivity|].
  rewrite !OverlapFacts.filter_length_step, <- IH.
  pose proof (masks_exclusive x). lia.
Qed.

Lemma calculate_fractions_counter (round : Q -> Q) (self : Overlap.t) :
  Overlap.mode self = "counter"%string ->
  Overlap.calculate_fractions round self =
  Ok (Overlap.true_divide round
        (Overlap.count_nonzero Overlap.gt_1 (Overlap.metrics self)) (point_num self),
      Overlap.true_divide round
        (Overlap.count_nonzero Overlap.eq_1 (Overlap.metrics self)) (point_num self),
      Overlap.true_divide round
        (Overlap.count_nonzero Overlap.eq_0 (Overlap.metrics self)) (point_num self)).
Proof.
  intros Hmode. unfold Overlap.calculate_fractions. rewrite Hmode. reflexivity.
Qed.

(** In mode "counter", on any grid of numbers on which at least one value
    is 0, 1 or above 1, whatever the other values are, the three fractions
    are numbers, each within half an ulp of the quotient of its count by
    the number of counted points, and they add up to 1 within floating
    tolerance (three half ulps). *)
Theorem calculate_fractions_sum_near_one (round : Q -> Q) (self : Overlap.t) :
  Overlap.rounds_to_nearest round ->
  Overlap.mode self = "counter"%string ->
  0 < point_num self ->
  exists overlapped non_overlapped empty,
    Overlap.calculate_fractions round self = Ok (overlapped, non_overlapped, empty) /\
    Overlap.sum_near_one (overlapped, non_overlapped, empty) /\
    near_quotient overlapped
      (Overlap.count_nonzero Overlap.gt_1 (Overlap.metrics self)) (point_num self) /\
    near_quotient non_overlapped
      (Overlap.count_nonzero Overlap.eq_1 (Overlap.metrics self)) (point_num self) /\
    near_quotient empty
      (Overlap.count_nonzero Overlap.eq_0 (Overlap.metrics self)) (point_num self).
Proof.
  intros Hround Hmode Hpos. rewrite (calculate_fractions_counter round self Hmode).
  unfold point_num in *.
  set (a := Overlap.count_nonzero Overlap.gt_1 (Overlap.metrics self)) in *.
  set (b := Overlap.count_nonzero Overlap.eq_1 (Overlap.metrics self)) in *.
  set (c := Overlap.count_nonzero Overlap.eq_0 (Overlap.metrics self)) in *.
  unfold Overlap.true_divide.
  destruct (a + b + c) as [|k] eqn:Hk; [lia|]. rewrite <- Hk.
  eexists; eexists; eexists. split; [reflexivity|].
  split; [apply OverlapFacts.rounded_fractions_sum; [exact Hround | lia]|].
  assert (Ha : a <= a + b + c) by lia.
  assert (Hb : b <= a + b + c) by lia.
  assert (Hc : c <= a + b + c) by lia.
  unfold near_quotient.
  repeat split;
    apply Hround; apply OverlapFacts.quotient_between_0_and_1; lia.
Qed.

Lemma calculate_fractions_sum_near_one_witness :
  exists overlapped non_overlapped empty,
    Overlap.calculate_fractions Examples.round_2_53
      (Overlap.Build [[(1 # 2)%Q; 1%Q]; [(-3)%Q; 2%Q]] "counter")
    = Ok (overlapped, non_overlapped, empty) /\
    Overlap.sum_near_one (overlapped, non_overlapped, empty) /\
    near_quotient overlapped 1 2 /\
    near_quotient non_overlapped 1 2 /\
    near_quotient empty 0 2.
Proof.
  apply (@calculate_fractions_sum_near_one Examples.round_2_53
           (Overlap.Build [[(1 # 2)%Q; 1%Q]; [(-3)%Q; 2%Q]] "counter")).
  - exact OverlapFacts.round_2_53_nearest.
  - reflexivity.
  - cbn. lia.
Defined.

(** [calculate_fractions] never returns an infinity: its three results are
    numbers, or all three are nan, and they are nan exactly when no grid
    value is 0, 1 or above 1. *)
Theorem calculate_fractions_finite_or_nan (round : Q -> Q) (self : Overlap.t)
  (f : Overlap.npfloat * Overlap.npfloat * Overlap.npfloat) :
  Overlap.calculate_fractions round self = Ok f ->
  (point_num self = 0 /\ f = (Overlap.NaN, Overlap.NaN, Overlap.NaN)) \/
  (0 < point_num self /\
   exists a b c, f = (Overlap.Finite a, Overlap.Finite b, Overlap.Finite c)).
Proof.
  unfold Overlap.calculate_fractions.
  destruct (negb (String.eqb (Overlap.mode self) "counter")); [discriminate|].
  fold (point_num self). intros [= <-].
  unfold point_num.
  set (a := Overlap.count_nonzero Overlap.gt_1 (Overlap.metrics self)).
  set (b := Overlap.count_nonzero Overlap.eq_1 (Overlap.metrics self)).
  set (c := Overlap.count_nonzero Overlap.eq_0 (Overlap.metrics self)).
  destruct (a + b + c) as [|k] eqn:Hk.
  - left. split; [reflexivity|].
    assert (a = 0 /\ b = 0 /\ c = 0) as [-> [-> ->]] by lia. reflexivity.
  - right. split; [lia|]. unfold Overlap.true_divide.
    eexists; eexists; eexists. reflexivity.
Qed.

Lemma calculate_fractions_finite_or_nan_witness :
  (point_num (Overlap.Build [[(1 # 2)%Q]] "counter") = 0 /\
   (Overlap.NaN, Overlap.NaN, Overlap.NaN)
   = (Overlap.NaN, Overlap.NaN, Overlap.NaN)) \/
  (0 < point_num (Overlap.Build [[(1 # 2)%Q]] "counter") /\
   exists a b c,
     (Overlap.NaN, Overlap.NaN, Overlap.NaN)
     = (Overlap.Finite a, Overlap.Finite b, Overlap.Finite c)).
Proof.
  apply (@calculate_fractions_finite_or_nan Examples.round_2_53
           (Overlap.Build [[(1 # 2)%Q]] "counter")).
  reflexivity.
Defined.

Lemma filter_length_Permutation {A : Type} (f : A -> bool) (l l' : list A) :
  Permutation l l' -> List.length (filter f l) = List.length (filter f l').
Proof.
  induction 1 as [|x l l' _ IH|x y l|l l' l'' _ IH1 _ IH2].
  - reflexivity.
  - rewrite !OverlapFacts.filter_length_step. now rewrite IH.
  - rewrite !OverlapFacts.filter_length_step. lia.
  - now rewrite IH1.
Qed.

(** The fractions depend on the grid values only, not on where they sit:
    two grids whose values are the same up to order, whatever their shapes,
    give the same result in every mode. *)
Theorem calculate_fractions_arrangement (round : Q -> Q)
  (metrics metrics' : list (list Q))
  (mode : string) :
  Permutation (List.concat metrics) (List.concat metrics') ->
  Overlap.calculate_fractions round (Overlap.Build metrics mode)
  = Overlap.calculate_fractions round (Overlap.Build metrics' mode).
Proof.
  intros H. unfold Overlap.calculate_fractions, Overlap.count_nonzero.
  cbn [Overlap.metrics Overlap.mode].
  now rewrite !(filter_length_Permutation _ H).
Qed.

Lemma calculate_fractions_arrangement_witness :
  Overlap.calculate_fractions Examples.round_2_53
    (Overlap.Build (Overlap.counts [[0; 1]; [2; 1]]) "counter")
  = Overlap.calculate_fractions Examples.round_2_53
      (Overlap.Build (Overlap.counts [[1; 2; 1; 0]]) "counter").
Proof.
  apply (@calculate_fractions_arrangement Examples.round_2_53
           (Overlap.counts [[0; 1]; [2; 1]]) (Overlap.counts [[1; 2; 1; 0]])).
  cbn.
  apply Permutation_cons_app with (l1 := [inject_Z 1; inject_Z 2; inject_Z 1]) (l2 := []).
  apply Permutation_refl.
Defined.

Lemma filter_filter_length {A : Type} (f g : A -> bool) (l : list A) :
  (forall x, f x = true -> g x = true) ->
  List.length (filter f (filter g l)) = List.length (filter f l).
Proof.
  intros Hfg. induction l as [|x l IH]; [reflexivity|].
  cbn [filter]. destruct (g x) eqn:Hg, (f x) eqn:Hf; cbn [filter];
    rewrite ?Hf; cbn [List.length]; try (now rewrite IH).
  apply Hfg in Hf. congruence.
Qed.

(** Grid values that are neither 0, nor 1, nor above 1 (negative values,
    values strictly between 0 and 1) are left out of the count of points:
    with them [point_num] falls short of the number of grid points by their
    number, and the result is the one of the grid without them. *)
Theorem calculate_fractions_ignores_unclassified (round : Q -> Q) (self : Overlap.t) :
  point_num self
  + List.length (filter (fun x => negb (classified x)) (List.concat (Overlap.metrics self)))
  = Overlap.size self /\
  Overlap.calculate_fractions round self
  = Overlap.calculate_fractions round
      (Overlap.Build [filter classified (List.concat (Overlap.metrics self))]
         (Overlap.mode self)).
Proof.
  split.
  - unfold point_num, Overlap.count_nonzero, Overlap.size.
    rewrite point_num_classified.
    induction (List.concat (Overlap.metrics self)) as [|x l IH]; [reflexivity|].
    cbn. destruct (classified x); cbn; lia.
  - unfold Overlap.calculate_fractions, Overlap.count_nonzero.
    cbn [Overlap.metrics Overlap.mode List.concat]. rewrite app_nil_r.
    rewrite !filter_filter_length; [reflexivity | | |];
      intros x Hx; unfold classified; rewrite Hx;
      repeat rewrite orb_true_r; reflexivity.
Qed.

End OverlapMore.

(** ** Tiling: overlaps and the radius-constrained generator *)

Module TilingMore.

Import Tiling Widths.

Local Open Scope nat_scope.

Lemma transpose_shape (row : list R) (rest : list (list R)) :
  Forall (fun r => List.length r = List.length row) rest ->
  List.length (transpose (row :: rest)) = List.length row /\
  Forall (fun c => List.length c = S (List.length rest)) (transpose (row :: rest)).
Proof.
  revert row. induction rest as [|row' rest IH]; intros row Hall.
  - cbn. rewrite length_map. split; [reflexivity|].
    apply Forall_map. apply Forall_forall. intros x _. reflexivity.
  - inversion Hall as [|? ? Hrow' Hrest]; subst.
    assert (Hrest' : Forall (fun r => List.length r = List.length row') rest).
    { eapply Forall_impl; [|exact Hrest]. cbn. intros r Hr. congruence. }
    destruct (IH row' Hrest') as [Hlen Hcols].
    change (transpose (row :: row' :: rest))
      with (map (fun p => fst p :: snd p) (combine row (transpose (row' :: rest)))).
    split.
    + rewrite length_map, length_combine, Hlen, Hrow'. apply Nat.min_id.
    + apply Forall_map. apply Forall_forall. intros [x c] Hin. cbn.
      apply in_combine_r in Hin. rewrite Forall_forall in Hcols.
      now rewrite (Hcols c Hin).
Qed.

Section Packing.

Variable Psf : Type.
Variable P : PackingEngine.

(** In radius-constrained mode the grid the packing engine returns, one
    row per axis and one column per beam, is stored transposed: the number
    of beams is the number of columns, and every coordinate has as many
    components as the grid has rows. *)
Theorem generate_radius_tiling_shape (beam_shape : BeamShape.t Psf)
  (tiling_radius overlap : R) (row : list R) (rest : list (list R)) :
  ellipseGrid P tiling_radius (widthH beam_shape overlap)
    (widthV beam_shape overlap) (BeamShape.angle beam_shape) = row :: rest ->
  Forall (fun r => List.length r = List.length row) rest ->
  exists tiling,
    generate_radius_tiling P beam_shape tiling_radius overlap = Ok tiling /\
    beam_num tiling = List.length row /\
    Forall (fun c => List.length c = S (List.length rest)) (coordinates tiling) /\
    Tiling.tiling_radius tiling = tiling_radius.
Proof.
  intros Hgrid Hrect. unfold generate_radius_tiling.
  unfold widthH, widthV in Hgrid.
  destruct (BeamShape.width_at_overlap beam_shape overlap) as [[wH wV]|e] eqn:Hw;
    [|rewrite BeamShapeFacts.width_at_overlap_eq in Hw; discriminate Hw].
  cbn [bind fst snd] in *. rewrite Hgrid.
  destruct (@transpose_shape row rest Hrect) as [Hlen Hcols].
  eexists. split; [reflexivity|]. cbn. repeat split; assumption.
Qed.

(** An Overlap computed by a tiling can be turned into fractions exactly
    when it was computed in mode "counter": in any other mode, "heater"
    as [plot_sky_pattern] uses it among them, [calculate_fractions] ends
    with the TypeError of its guard, whatever the overlap engine
    returned. *)
Theorem calculate_overlap_then_fractions (round : Q -> Q) (self : t Psf)
  (mode : string) (new_beam_shape : option (BeamShape.t Psf)) :
  (mode <> "counter"%string ->
   Overlap.calculate_fractions round (calculate_overlap P self mode new_beam_shape)
   = Raise TypeError) /\
  (mode = "counter"%string ->
   Py.returns
     (Overlap.calculate_fractions round
        (calculate_overlap P self mode new_beam_shape))).
Proof.
  unfold Overlap.calculate_fractions, calculate_overlap. cbn [Overlap.mode]. split.
  - intros H. apply String.eqb_neq in H. now rewrite H.
  - intros ->. cbn. eexists. reflexivity.
Qed.

(** [calculate_overlap] reads the axes and the angle of the overriding
    beam shape and nothing else: a beam shape with the axes and angle of
    the tiling's own gives the Overlap that no override gives. *)
Theorem calculate_overlap_override (self : t Psf) (mode : string)
  (new_beam_shape : BeamShape.t Psf) :
  BeamShape.axisH new_beam_shape = BeamShape.axisH (beam_shape self) ->
  BeamShape.axisV new_beam_shape = BeamShape.axisV (beam_shape self) ->
  BeamShape.angle new_beam_shape = BeamShape.angle (beam_shape self) ->
  calculate_overlap P self mode (Some new_beam_shape)
  = calculate_overlap P self mode None.
Proof.
  intros HH HV Ha. unfold calculate_overlap. now rewrite HH, HV, Ha.
Qed.

End Packing.

Lemma generate_radius_tiling_shape_witness :
  exists tiling,
    generate_radius_tiling Examples.line_packing (Examples.beam 2 1) 10%R (/ 2)%R
    = Ok tiling /\
    beam_num tiling = 3 /\
    Forall (fun c => List.length c = 2) (coordinates tiling) /\
    Tiling.tiling_radius tiling = 10%R.
Proof.
  apply (@generate_radius_tiling_shape unit Examples.line_packing
           (Examples.beam 2 1) 10%R (/ 2)%R
           [0; widthH (Examples.beam 2 1) (/ 2); - widthH (Examples.beam 2 1) (/ 2)]%R
           [[0; 0; 0]%R]).
  - reflexivity.
  - repeat constructor.
Defined.

Lemma calculate_overlap_override_witness :
  calculate_overlap Examples.line_packing
    (init [[0; 0]%R] (Examples.beam 2 1) 1%R (/ 2)%R) "counter"
    (Some (BeamShape.Build 2%R 1%R 0%R tt (PyStr "other") PyNone
             PsfSim.reference_antenna [1%R]))
  = calculate_overlap Examples.line_packing
      (init [[0; 0]%R] (Examples.beam 2 1) 1%R (/ 2)%R) "counter" None.
Proof.
  apply (@calculate_overlap_override unit Examples.line_packing
           (init [[0; 0]%R] (Examples.beam 2 1) 1%R (/ 2)%R) "counter"%string
           (BeamShape.Build 2%R 1%R 0%R tt (PyStr "other") PyNone
              PsfSim.reference_antenna [1%R]));
    reflexivity.
Defined.

End TilingMore.

(** ** dict_to_ordered_list: the values of a dict in the order of its keys *)

Module DictMore.

Import DelayPolynomial Notions.

Lemma ascii_compare_refl (c : ascii) : Ascii.compare c c = Eq.
Proof. unfold Ascii.compare. apply N.compare_refl. Qed.

Lemma ascii_compare_lt_trans (a b c : ascii) :
  Ascii.compare a b = Lt -> Ascii.compare b c = Lt -> Ascii.compare a c = Lt.
Proof.
  unfold Ascii.compare. rewrite !N.compare_lt_iff. apply N.lt_trans.
Qed.

Lemma leb_trans (a b c : string) :
  String.leb a b = true -> String.leb b c = true -> String.leb a c = true.
Proof.
  unfold String.leb. revert b c.
  induction a as [|x a IH]; intros [|y b] [|z c]; cbn [String.compare];
    try easy.
  destruct (Ascii.compare x y) eqn:Hxy; [| |easy];
    destruct (Ascii.compare y z) eqn:Hyz; try easy.
  - apply Ascii.compare_eq_iff in Hxy, Hyz. subst.
    rewrite ascii_compare_refl. apply IH.
  - apply Ascii.compare_eq_iff in Hxy. subst. now rewrite Hyz.
  - apply Ascii.compare_eq_iff in Hyz. subst. now rewrite Hxy.
  - now rewrite (ascii_compare_lt_trans _ _ _ Hxy Hyz).
Qed.

Section Values.

Context {V : Type}.

Lemma insert_key_perm (kv : string * V) (l : list (string * V)) :
  Permutation (kv :: l) (insert_key kv l).
Proof.
  induction l as [|kv' l IH]; [apply Permutation_refl|].
  cbn. destruct (String.leb (fst kv) (fst kv')); [apply Permutation_refl|].
  eapply perm_trans; [apply perm_swap|]. now apply perm_skip.
Qed.

Lemma sorted_items_perm (d : list (string * V)) :
  Permutation d (sorted_items d).
Proof.
  unfold sorted_items. induction d as [|kv d IH]; [constructor|].
  cbn. eapply perm_trans; [|apply insert_key_perm]. now apply perm_skip.
Qed.

Lemma insert_key_sorted (kv : string * V) (l : list (string * V)) :
  StronglySorted key_le l -> StronglySorted key_le (insert_key kv l).
Proof.
  induction 1 as [|kv' l Hl IH Hall]; cbn.
  - repeat constructor.
  - destruct (String.leb (fst kv) (fst kv')) eqn:Hle.
    + constructor; [now constructor|].
      constructor; [exact Hle|].
      eapply Forall_impl; [|exact Hall].
      intros kv'' H. unfold key_le in *. eapply leb_trans; eassumption.
    + constructor; [exact IH|].
      apply (Permutation_Forall (insert_key_perm kv l)).
      constructor; [|exact Hall]. unfold key_le.
      destruct (String.leb_total (fst kv) (fst kv')) as [H|H]; congruence.
Qed.

Lemma sorted_items_sorted (d : list (string * V)) :
  StronglySorted key_le (sorted_items d).
Proof.
  unfold sorted_items. induction d as [|kv d IH]; [constructor|].
  cbn. now apply insert_key_sorted.
Qed.

(** The list returned holds the values of the dict, each once, in the
    order of their keys. *)
Theorem dict_to_ordered_list_sorted (d : list (string * V)) :
  exists items,
    Permutation d items /\
    StronglySorted key_le items /\
    dict_to_ordered_list d = map snd items.
Proof.
  exists (sorted_items d).
  split; [apply sorted_items_perm|]. split; [apply sorted_items_sorted|].
  reflexivity.
Qed.

Lemma sorted_unique (l l' : list (string * V)) :
  NoDup (map fst l) ->
  StronglySorted key_le l -> StronglySorted key_le l' ->
  Permutation l l' ->
  l = l'.
Proof.
  revert l'. induction l as [|a l IH]; intros l' Hnd Hs Hs' Hp.
  - apply Permutation_nil in Hp. now subst.
  - destruct l' as [|b l'];
      [apply Permutation_sym, Permutation_nil in Hp; discriminate|].
    inversion Hs as [|? ? Hsl Hal]; subst.
    inversion Hs' as [|? ? Hsl' Hbl']; subst.
    inversion Hnd as [|? ? Hnotin Hnd']; subst.
    assert (Hab : a = b).
    { assert (Hina : In a (b :: l')) by (apply (Permutation_in _ Hp); now left).
      assert (Hinb : In b (a :: l))
        by (apply (Permutation_in _ (Permutation_sym Hp)); now left).
      destruct Hina as [Hba | Hina]; [now symmetry|].
      destruct Hinb as [Hab | Hinb]; [assumption|].
      rewrite Forall_forall in Hal, Hbl'.
      pose proof (Hal b Hinb) as H1. pose proof (Hbl' a Hina) as H2.
      unfold key_le in H1, H2.
      pose proof (String.leb_antisym _ _ H1 H2) as Hkey.
      exfalso. apply Hnotin. rewrite Hkey. now apply in_map. }
    subst b. f_equal.
    apply IH; try assumption. now apply Permutation_cons_inv with (a := a).
Qed.

(** The order in which a dict holds its items does not matter: two item
    lists with the same items, of distinct keys, give the same list. *)
Theorem dict_to_ordered_list_order_independent (d d' : list (string * V)) :
  NoDup (map fst d) ->
  Permutation d d' ->
  dict_to_ordered_list d = dict_to_ordered_list d'.
Proof.
  intros Hnd Hp. unfold dict_to_ordered_list. f_equal.
  apply sorted_unique.
  - apply (Permutation_NoDup (Permutation_map fst (sorted_items_perm d)) Hnd).
  - apply sorted_items_sorted.
  - apply sorted_items_sorted.
  - eapply perm_trans; [apply Permutation_sym, sorted_items_perm|].
    eapply perm_trans; [exact Hp | apply sorted_items_perm].
Qed.

End Values.

Lemma dict_to_ordered_list_order_independent_witness :
  dict_to_ordered_list [("m001h", 3); ("m000v", 2); ("m000h", 1)]%string
  = dict_to_ordered_list [("m000h", 1); ("m001h", 3); ("m000v", 2)]%string.
Proof.
  apply (@dict_to_ordered_list_order_independent Q
           [("m001h", 3); ("m000v", 2); ("m000h", 1)]%string
           [("m000h", 1); ("m001h", 3); ("m000v", 2)]%string).
  - repeat constructor; cbn; intuition discriminate.
  - apply Permutation_cons_app with (l1 := [("m000h", 1)]%string) (l2 := [("m000v", 2)]%string).
    cbn. apply perm_swap.
Defined.

End DictMore.

(** ** DelayPolynomial: targets, shapes and offsets *)

Module DelayPolynomialMore.

Import DelayPolynomial Notions.

Local Open Scope nat_scope.

Section Katpoint.

Variables Target DateTime Antennas Reference Correction : Type.
Variable katpoint_Target : string -> Target.
Variables angleToHour angleToDEC : Q -> string.
Variable datetimeToEpoch : DateTime -> Q.
Variable DelayCorrection : Antennas -> Reference -> Q -> Correction.
Variable corrections :
  Correction -> Target -> Q * Q -> list (string * list (Q * Q)).
Variable round : Q -> Q.

Local Abbreviation init := (init katpoint_Target angleToHour angleToDEC).
Local Abbreviation check_targets :=
  (check_targets katpoint_Target angleToHour angleToDEC).
Local Abbreviation make_katpoint_target :=
  (make_katpoint_target katpoint_Target angleToHour angleToDEC).
Local Abbreviation target_of_coords :=
  (target_of_coords katpoint_Target angleToHour angleToDEC).
Local Abbreviation get_delay_polynomials :=
  (get_delay_polynomials round datetimeToEpoch DelayCorrection corrections).
Local Abbreviation window := (window round datetimeToEpoch).

Lemma make_katpoint_target_coords (cs : list (list Q)) :
  Forall (fun c => 2 <= List.length c) cs ->
  make_katpoint_target (map (Coords Target) cs) = Ok (map target_of_coords cs).
Proof.
  induction 1 as [|c cs Hc Hcs IH]; [reflexivity|].
  cbn [map DelayPolynomial.make_katpoint_target]. rewrite IH.
  destruct c as [|ra [|dec c]]; cbn in Hc; try lia. reflexivity.
Qed.

(** A list of coordinate lists, each of two components or more, is turned
    by the constructor into as many katpoint targets, in the order given,
    each built from the description "radec,<hour angle>,<declination>" of
    the first two components. *)
Theorem check_targets_coordinates (cs : list (list Q)) :
  cs <> [] ->
  Forall (fun c => 2 <= List.length c) cs ->
  check_targets (map (Coords Target) cs) = Ok (map target_of_coords cs).
Proof.
  intros Hne Hall. destruct cs as [|c cs]; [congruence|].
  apply (make_katpoint_target_coords Hall).
Qed.

Lemma make_katpoint_target_short (cs : list (list Q)) :
  Exists (fun c => List.length c < 2) cs ->
  make_katpoint_target (map (Coords Target) cs) = Raise IndexError.
Proof.
  induction cs as [|c cs IH]; intros H; [inversion H|].
  cbn [map DelayPolynomial.make_katpoint_target].
  destruct c as [|ra [|dec c]]; try reflexivity.
  cbn [make_target bind].
  inversion H as [? ? Hc | ? ? Hcs]; subst; [cbn in Hc; lia|].
  now rewrite (IH Hcs).
Qed.

(** The constructor raises IndexError when given no target at all, and
    when given coordinate lists one of which has fewer than two
    components. *)
Theorem init_index_error (antennas : Antennas) (reference : Reference)
  (cs : list (list Q)) :
  cs = [] \/ Exists (fun c => List.length c < 2) cs ->
  init antennas (map (Coords Target) cs) reference = Raise IndexError.
Proof.
  intros [-> | H]; [reflexivity|].
  unfold DelayPolynomial.init, DelayPolynomial.check_targets.
  destruct cs as [|c cs]; [inversion H|].
  change (Coords Target c :: map (Coords Target) cs)
    with (map (Coords Target) (c :: cs)).
  now rewrite (make_katpoint_target_short H).
Qed.

Lemma target_loop_repeat (self : t Target Antennas Reference) (timestamp : Q * Q)
  (target : Target) (row : list (Q * Q)) (n : nat) :
  target_delays DelayCorrection corrections self timestamp (TargetObj target) = Ok row ->
  target_loop DelayCorrection corrections self timestamp (repeat (TargetObj target) n)
  = Ok (repeat row n).
Proof.
  intros Hrow. induction n as [|n IH]; [reflexivity|].
  cbn [repeat target_loop]. rewrite Hrow. cbn [bind]. now rewrite IH.
Qed.

(** When all beams point at one target, the boresight's, the array
    returned is zero throughout: one row per beam, every delay and rate
    zero. *)
Theorem coincident_targets_give_zero (self : t Target Antennas Reference)
  (epoch : time_arg DateTime) (duration : Q) (target : Target)
  (n inputs samples : nat) :
  targets self = repeat (TargetObj target) (S n) ->
  0 < inputs -> 0 < samples ->
  rounds_zero round ->
  shaped inputs samples
    (corrections
       (DelayCorrection (antennas self) (reference self) (frequency self))
       target (window epoch duration)) = true ->
  exists rows,
    get_delay_polynomials self epoch duration = Ok rows /\
    List.length rows = S n /\
    Forall zero_row rows.
Proof.
  intros Htargets Hi Hs Hz Hshape.
  destruct (@DelayPolynomialFacts.target_delays_shaped _ _ _ _
              DelayCorrection corrections self _ target inputs samples Hi Hs Hshape)
    as [Hrow _].
  set (row := Notions.first_rate_row _) in Hrow.
  unfold DelayPolynomial.get_delay_polynomials. rewrite Htargets.
  fold (window epoch duration).
  rewrite (@target_loop_repeat self _ target row (S n) Hrow). cbn [bind].
  assert (Hstack : np_stack (repeat row (S n)) = Ok (repeat row (S n))).
  { apply (@DelayPolynomialFacts.np_stack_shaped _ (List.length row)).
    apply Forall_forall. intros r Hr. apply repeat_spec in Hr. now subst. }
  rewrite Hstack. cbn [bind]. cbn [repeat subtract_first].
  eexists. split; [reflexivity|]. split.
  - rewrite length_map. cbn. now rewrite repeat_length.
  - apply Forall_map. apply Forall_forall. intros r Hr.
    assert (r = row) as ->.
    { destruct Hr as [Hr|Hr]; [now symmetry | now apply repeat_spec in Hr]. }
    now apply DelayPolynomialFacts.sub_self_zero.
Qed.

Lemma target_loop_length (self : t Target Antennas Reference) (timestamp : Q * Q)
  (targets : list (target_arg Target)) (rows : list (list (Q * Q))) :
  target_loop DelayCorrection corrections self timestamp targets = Ok rows ->
  List.length rows = List.length targets.
Proof.
  revert rows. induction targets as [|target rest IH]; intros rows; cbn [target_loop].
  - now intros [= <-].
  - destruct (target_delays _ _ self timestamp target) as [row|e]; [|discriminate].
    cbn [bind].
    destruct (target_loop _ _ self timestamp rest) as [rows'|e]; [|discriminate].
    cbn [bind]. intros [= <-]. cbn. now rewrite (IH rows').
Qed.

Lemma np_stack_rectangular (rows rows' : list (list (Q * Q))) :
  np_stack rows = Ok rows' ->
  rows' = rows /\
  Forall (fun row => List.length row = List.length (hd [] rows)) rows.
Proof.
  intros H. pose proof (DelayPolynomialFacts.np_stack_inv _ H) as ->.
  split; [reflexivity|].
  destruct rows as [|a rest]; [constructor|].
  cbn [np_stack] in H. cbn [hd].
  destruct (forallb _ rest) eqn:Hall; [|discriminate].
  constructor; [reflexivity|].
  apply Forall_forall. intros b Hb.
  rewrite forallb_forall in Hall. apply Nat.eqb_eq. now apply Hall.
Qed.

(** Whatever the oracle answers, an array that is returned is
    rectangular: it has one row per target, and all its rows have one
    length. *)
Theorem returned_array_is_rectangular (self : t Target Antennas Reference)
  (epoch : time_arg DateTime) (duration : Q) (arr : list (list (Q * Q))) :
  get_delay_polynomials self epoch duration = Ok arr ->
  List.length arr = List.length (targets self) /\
  exists k, Forall (fun row => List.length row = k) arr.
Proof.
  unfold DelayPolynomial.get_delay_polynomials.
  destruct (target_loop _ _ self _ (targets self)) as [rows|e] eqn:Hloop;
    [|discriminate].
  cbn [bind]. destruct (np_stack rows) as [rows'|e] eqn:Hstack; [|discriminate].
  cbn [bind]. apply np_stack_rectangular in Hstack as [-> Hrect].
  apply target_loop_length in Hloop.
  destruct rows as [|row0 rest]; [discriminate|].
  cbn [hd] in *. intros H.
  assert (Harr : arr = map (fun row => map (fun p => sub_pair round (fst p) (snd p))
                                         (combine row row0)) (row0 :: rest))
    by (unfold subtract_first in H; congruence).
  subst arr. clear H. split.
  - now rewrite length_map.
  - exists (List.length row0). apply Forall_map.
    eapply Forall_impl; [|exact Hrect]. cbn. intros row Hrow.
    rewrite length_map, length_combine, Hrow. apply Nat.min_id.
Qed.

(** A target for which the oracle has no input at all, as the first
    target, makes the call fail with IndexError instead of returning an
    empty row. *)
Theorem no_inputs_index_error (self : t Target Antennas Reference)
  (epoch : time_arg DateTime) (duration : Q) (target : Target)
  (rest : list (target_arg Target)) :
  targets self = TargetObj target :: rest ->
  corrections
    (DelayCorrection (antennas self) (reference self) (frequency self))
    target (window epoch duration) = [] ->
  get_delay_polynomials self epoch duration = Raise IndexError.
Proof.
  intros Htargets Hempty. unfold DelayPolynomial.get_delay_polynomials.
  rewrite Htargets. fold (window epoch duration).
  cbn [target_loop]. unfold target_delays at 1. now rewrite Hempty.
Qed.

End Katpoint.

Lemma check_targets_coordinates_witness :
  DelayPolynomial.check_targets (fun description : string => description)
    (fun _ : Q => "6:00:00"%string) (fun _ : Q => "-30:00:00"%string)
    (map (Coords string) [[90; -30]; [90; -30; 7]]%Q)
  = Ok (map (target_of_coords (fun description : string => description)
               (fun _ : Q => "6:00:00"%string) (fun _ : Q => "-30:00:00"%string))
          [[90; -30]; [90; -30; 7]]%Q).
Proof.
  apply (@check_targets_coordinates string (fun description : string => description)
           (fun _ : Q => "6:00:00"%string) (fun _ : Q => "-30:00:00"%string)
           [[90; -30]; [90; -30; 7]]%Q).
  - discriminate.
  - repeat constructor.
Defined.

Lemma init_index_error_witness :
  DelayPolynomial.init (fun description : string => description)
    (fun _ : Q => "6:00:00"%string) (fun _ : Q => "-30:00:00"%string)
    Examples.four_antennas (map (Coords string) [[90; -30]; [90]]%Q) "m000"%string
  = Raise IndexError.
Proof.
  apply (@init_index_error string (list string) string
           (fun description : string => description)
           (fun _ : Q => "6:00:00"%string) (fun _ : Q => "-30:00:00"%string)
           Examples.four_antennas "m000"%string [[90; -30]; [90]]%Q).
  right. apply Exists_cons_tl. apply Exists_cons_hd. cbn. lia.
Defined.

Lemma coincident_targets_give_zero_witness :
  exists rows,
    Examples.delay_polynomials
      (Build Examples.four_antennas
         (repeat (TargetObj "boresight, radec, 4:37:15.8, -47:15:09.1"%string) 3)
         1400000000%Q "m000"%string)
    = Ok rows /\
    List.length rows = 3 /\
    Forall zero_row rows.
Proof.
  apply (@coincident_targets_give_zero string Q (list string) string
           (list string * Q)%type (fun d : Q => d)
           Examples.oracle_DelayCorrection Examples.oracle_corrections
           Examples.round_2_53
           (Build Examples.four_antennas
              (repeat (TargetObj "boresight, radec, 4:37:15.8, -47:15:09.1"%string) 3)
              1400000000%Q "m000"%string)
           (Number Q 100%Q) 10%Q
           "boresight, radec, 4:37:15.8, -47:15:09.1"%string 2 8 2).
  - reflexivity.
  - lia.
  - lia.
  - exact OverlapFacts.round_2_53_zero.
  - vm_compute. reflexivity.
Defined.

Lemma returned_array_is_rectangular_witness :
  List.length
    [[(0, 0); (0, 0); (0, 0); (0, 0)];
     [(-3 # 1, 0); (-3 # 1, 0); (-3 # 1, 0); (-3 # 1, 0)]]%Q
  = List.length (targets Examples.delay_polynomial_object) /\
  exists k,
    Forall (fun row : list (Q * Q) => List.length row = k)
      [[(0, 0); (0, 0); (0, 0); (0, 0)];
       [(-3 # 1, 0); (-3 # 1, 0); (-3 # 1, 0); (-3 # 1, 0)]]%Q.
Proof.
  apply (@returned_array_is_rectangular string Q (list string) string
           (list string * Q)%type (fun d : Q => d)
           Examples.oracle_DelayCorrection Examples.oracle_corrections
           Examples.round_2_53
           Examples.delay_polynomial_object (Number Q 100%Q) 10%Q).
  vm_compute. reflexivity.
Defined.

Lemma no_inputs_index_error_witness :
  DelayPolynomial.get_delay_polynomials Examples.round_2_53 (fun d : Q => d)
    Examples.oracle_DelayCorrection Examples.oracle_corrections
    (Build (@nil string) Examples.two_targets 1400000000%Q "m000"%string)
    (Number Q 100%Q) 10%Q
  = Raise IndexError.
Proof.
  apply (@no_inputs_index_error string Q (list string) string
           (list string * Q)%type (fun d : Q => d)
           Examples.oracle_DelayCorrection Examples.oracle_corrections
           Examples.round_2_53
           (Build (@nil string) Examples.two_targets 1400000000%Q "m000"%string)
           (Number Q 100%Q) 10%Q
           "boresight, radec, 4:37:15.8, -47:15:09.1"%string
           [TargetObj "beam 1, radec, 4:37:20.0, -47:15:00.0"%string]);
    reflexivity.
Defined.

End DelayPolynomialMore.
